(** * Design search engine: BM25 retrieval over per-category CSV corpora

    Shallow embedding of [src/mastra/tools/design/search.py]
    ([DesignSearchEngine] and its [SearchResult]) and the properties of
    its search orchestration and recommendation composer.

    Conventions of the embedding:
    - a Python [str] is a [string] whose characters are code points
      below 256;
    - a CSV row (a [dict] produced by [csv.DictReader]) is an ordered
      association list from field names to values, a value being a
      string or [None] (the filler of a row shorter than the header);
    - the engine's two caches ([self.indices], [self.documents]) are
      finite maps keyed by category name, threaded through a
      state-and-exception monad;
    - the scoring library ([rank_bm25.BM25Okapi]) is not part of the
      repository: the orchestration is stated over an arbitrary scorer,
      whose constructor may raise, and the scoring formula of the
      specification is modelled separately in [Module BM25]. *)

From Stdlib Require Import Ascii String Reals Lra.
From stdpp Require Import base strings list gmap sorting.

Open Scope string_scope.
Open Scope Z_scope.
Open Scope list_scope.

(** ** Text: lowercasing, whitespace splitting, joining *)

Module Text.

(** [str.isspace] on code points below 256: TAB..CR, FS..US, SPACE,
    NEL (0x85) and NBSP (0xA0). *)
Definition is_space (c : ascii) : bool :=
  let n := nat_of_ascii c in
  ((9 <=? n) && (n <=? 13) || (28 <=? n) && (n <=? 32)
   || (n =? 133) || (n =? 160))%nat.

(** [str.lower] on one code point below 256: A..Z and the Latin-1
    capitals 0xC0..0xDE (the multiplication sign 0xD7 excepted) move up
    by 32. *)
Definition lower_char (c : ascii) : ascii :=
  let n := nat_of_ascii c in
  if ((65 <=? n) && (n <=? 90)
      || (192 <=? n) && (n <=? 222) && negb (n =? 215))%nat
  then ascii_of_nat (n + 32) else c.

Fixpoint lower (s : string) : string :=
  match s with
  | EmptyString => EmptyString
  | String c s' => String (lower_char c) (lower s')
  end.

(** The pending word of [split], kept reversed while it is read. *)
Definition flush (acc : list ascii) : list string :=
  match acc with
  | [] => []
  | _ => [string_of_list_ascii (rev acc)]
  end.

Fixpoint split_aux (acc : list ascii) (s : string) : list string :=
  match s with
  | EmptyString => flush acc
  | String c s' =>
      if is_space c then flush acc ++ split_aux [] s'
      else split_aux (c :: acc) s'
  end.

(** [s.split()]: the maximal runs of non-whitespace characters. *)
Definition split (s : string) : list string := split_aux [] s.

Fixpoint split_on_aux (sep : ascii) (acc : list ascii) (s : string)
  : list string :=
  match s with
  | EmptyString => [string_of_list_ascii (rev acc)]
  | String c s' =>
      if Ascii.eqb c sep
      then string_of_list_ascii (rev acc) :: split_on_aux sep [] s'
      else split_on_aux sep (c :: acc) s'
  end.

(** [s.split(sep)] for a one-character separator: empty pieces are kept,
    and the empty string yields one empty piece. *)
Definition split_on (sep : ascii) (s : string) : list string :=
  split_on_aux sep [] s.

(** [sep.join(parts)]. *)
Fixpoint join (sep : string) (parts : list string) : string :=
  match parts with
  | [] => ""
  | [p] => p
  | p :: rest => p +:+ sep +:+ join sep rest
  end.

End Text.

Example split_demo :
  Text.split (Text.lower "  Minimal  DASHBOARD	ui ") = ["minimal"; "dashboard"; "ui"].
Proof. reflexivity. Qed.

Example split_on_demo :
  Text.split_on ";" "clutter;;noise" = ["clutter"; ""; "noise"].
Proof. reflexivity. Qed.

(** ** Records, results and the data directory *)

(** A value of a CSV row: a string, or [None]. *)
Definition value := option string.

(** A row as [csv.DictReader] yields it: field names in header order. *)
Definition record := list (string * value).

(** [k in r] and [r[k]] / [r.get(k)]: the value bound to the field. *)
Fixpoint rec_get (k : string) (r : record) : option value :=
  match r with
  | [] => None
  | (k', v) :: r' => if String.eqb k k' then Some v else rec_get k r'
  end.

(** Truthiness of a value: [None] and the empty string are falsy. *)
Definition truthy (v : value) : bool :=
  match v with
  | Some s => negb (String.eqb s "")
  | None => false
  end.

(** [[str(v) for v in doc.values() if v]]. *)
Definition text_fields (doc : record) : list string :=
  omap (fun kv => match snd kv with
                  | Some s => if String.eqb s "" then None else Some s
                  | None => None
                  end) doc.

(** Lines 67-68: the tokens of a row. *)
Definition tokenize_doc (doc : record) : list string :=
  Text.split (Text.lower (Text.join " " (text_fields doc))).

(** Line 76: the tokens of a query. *)
Definition tokenize_query (query : string) : list string :=
  Text.split (Text.lower query).

(** The text [json.dumps] renders for a row, kept symbolically: the
    engine stores it in [content] and never reads it back. *)
Inductive json_text := json_dumps (doc : record).

(** What the data directory holds under a file name: nothing (the name
    is absent from the map), a file that cannot be opened or decoded, or
    a CSV file with its rows. *)
Inductive file :=
  | Unreadable
  | Rows (rows : list record).

(** Exceptions the engine can let escape. *)
Inductive exn :=
  OSError | KeyError | IndexError | AttributeError | ZeroDivisionError.

Inductive outcome (A : Type) :=
  | Ok (a : A)
  | Raise (e : exn).
Arguments Ok {A} a.
Arguments Raise {A} e.

(** [self.domains], in insertion order. *)
Definition domains : list (string * string) :=
  [ ("product", "products.csv");
    ("style", "styles.csv");
    ("color", "colors.csv");
    ("typography", "typography.csv");
    ("landing", "landing-pages.csv");
    ("chart", "charts.csv");
    ("ux", "ux-guidelines.csv") ].

Definition domain_keys : list string := fst <$> domains.

Fixpoint assoc (k : string) (l : list (string * string)) : option string :=
  match l with
  | [] => None
  | (k', v) :: l' => if String.eqb k k' then Some v else assoc k l'
  end.

(** Line 44: [self.domains.get(domain, f"{domain}.csv")]. *)
Definition csv_name (d : string) : string :=
  default (d +:+ ".csv") (assoc d domains).

(** The engine: a built index is represented by the tokenized corpus
    handed to [BM25Okapi]; [loads] is the history of [load_domain]
    calls, oldest first. *)
Record engine := {
  indices : gmap string (list (list string));
  documents : gmap string (list record);
  loads : list string
}.

Definition init : engine :=
  {| indices := ∅; documents := ∅; loads := [] |}.

(** State-and-exception monad of the engine's methods: a raised
    exception keeps the state reached so far. *)
Definition M (A : Type) : Type := engine -> outcome A * engine.

Definition ret {A} (a : A) : M A := fun st => (Ok a, st).
Definition raise {A} (e : exn) : M A := fun st => (Raise e, st).
Definition bind {A B} (m : M A) (f : A -> M B) : M B :=
  fun st => match m st with
            | (Ok a, st') => f a st'
            | (Raise e, st') => (Raise e, st')
            end.
Definition get : M engine := fun st => (Ok st, st).
Definition modify (f : engine -> engine) : M unit := fun st => (Ok tt, f st).
Definition lift {A} (o : outcome A) : M A := fun st => (o, st).

Notation "'let*' x ':=' m 'in' k" := (bind m (fun x => k))
  (at level 10, x name, m at level 100, k at level 200).
Notation "m ';;' k" := (bind m (fun _ => k))
  (at level 100, k at level 200, right associativity).

Fixpoint foldM {A B} (f : B -> A -> M B) (b : B) (l : list A) : M B :=
  match l with
  | [] => ret b
  | a :: l' => let* b' := f b a in foldM f b' l'
  end.

(** [l[:m]] for a Python integer [m]: a negative bound counts from the
    end. *)
Definition slice_to {A} (m : Z) (l : list A) : list A :=
  if 0 <=? m then take (Z.to_nat m) l
  else take (length l - Z.to_nat (- m))%nat l.

(** [l[i:j]] for constant non-negative bounds. *)
Definition slice {A} (i j : nat) (l : list A) : list A :=
  take (j - i)%nat (drop i l).

(** ** The scoring formula of the specification *)

(** The engine delegates scoring to [rank_bm25.BM25Okapi], constructed
    with its default parameters at line 71 and queried at line 89; the
    library is not part of the repository.  This module states over the
    reals the formula that section 4.2 of the specification gives for
    it. *)
Module BM25.

(** Modelled from the spec: the tuning constant k1 = 1.5 of the absent
    scoring library. *)
Definition k1 : R := 1.5%R.

(** Modelled from the spec: the tuning constant b = 0.75 of the absent
    scoring library. *)
Definition b : R := 0.75%R.

(** Modelled from the spec: TF(t,d) of the absent scoring library, the
    number of occurrences of the token in the document. *)
Definition tf (t : string) (d : list string) : nat :=
  length (filter (fun x => x = t) d).

(** Modelled from the spec: df(t) of the absent scoring library, the
    number of documents containing the token at least once. *)
Definition df (corpus : list (list string)) (t : string) : nat :=
  length (filter (fun d => t ∈ d) corpus).

(** Modelled from the spec: avgdl of the absent scoring library, the
    average document length (token count) across the collection. *)
Definition avgdl (corpus : list (list string)) : R :=
  (INR (sum_list (length <$> corpus)) / INR (length corpus))%R.

(** Modelled from the spec: IDF(t) of the absent scoring library,
    log((N - df(t) + 0.5)/(df(t) + 0.5) + 1). *)
Definition idf (corpus : list (list string)) (t : string) : R :=
  ln ((INR (length corpus) - INR (df corpus t) + 0.5) / (INR (df corpus t) + 0.5) + 1)%R.

(** Modelled from the spec: the amount one query token contributes to
    the score of a document in the absent scoring library,
    IDF(t) * TF(t,d)*(k1+1) / (TF(t,d) + k1*(1 - b + b*|d|/avgdl)),
    and nothing for a token absent from the vocabulary. *)
Definition contribution (corpus : list (list string)) (d : list string) (t : string) : R :=
  if bool_decide (df corpus t = 0%nat) then 0%R
  else (idf corpus t * (INR (tf t d) * (k1 + 1))
        / (INR (tf t d) + k1 * (1 - b + b * INR (length d) / avgdl corpus)))%R.

(** Modelled from the spec: Score(query_tokens, doc) of the absent
    scoring library, the sum of the contributions of the query tokens. *)
Definition score (corpus : list (list string)) (q : list string) (d : list string) : R :=
  foldr (fun t acc => (contribution corpus d t + acc)%R) 0%R q.

(** Modelled from the spec: GetScores(query_tokens) of the absent
    scoring library, one score per document in load order. *)
Definition get_scores (corpus : list (list string)) (q : list string) : list R :=
  score corpus q <$> corpus.

(** [<] and [0] on real scores. *)
Definition ltb (x y : R) : bool := if Rlt_dec x y then true else false.

(** Modelled from the spec: the constructor of the absent scoring
    library.  The specification names no failure of Build; the average
    IDF of the library divides by the size of the vocabulary, so a
    corpus without any token is taken to raise [ZeroDivisionError], and
    every other corpus to build. *)
Definition index_error (corpus : list (list string)) : option exn :=
  if forallb (fun d => bool_decide (d = [])) corpus
  then Some ZeroDivisionError else None.

End BM25.

(** ** The engine *)

Section Engine.

(** Scores are Python floats; the engine only compares them, so they
    are kept abstract: [zero] is [0] and [ltb] is [<]. *)
Context {num : Type}.
Variable zero : num.
Variable ltb : num -> num -> bool.

(** [BM25Okapi(tokenized_corpus).get_scores(query_tokens)]: the scoring
    library, applied to the corpus an index was built from. *)
Variable get_scores : list (list string) -> list string -> list num.

(** [BM25Okapi(tokenized_corpus)], line 71: the constructor of the
    scoring library may raise; [index_error corpus] is the exception it
    raises on the corpus, if any.  An index that was built is
    represented by its corpus. *)
Variable index_error : list (list string) -> option exn.

(** The content of the data directory, by file name. *)
Variable fs : gmap string file.

(** The iteration order of a Python [set] built from a list of strings:
    it depends on the string hashes of the running process. *)
Variable set_list : list string -> list string.

Record SearchResult := {
  domain : string;
  content : json_text;
  metadata : record;
  score : num
}.

(** Lines 42-55. *)
Definition load_domain (d : string) : M (list record) :=
  modify (fun st => {| indices := indices st; documents := documents st;
                       loads := loads st ++ [d] |}) ;;
  match fs !! csv_name d with
  | None => ret []
  | Some Unreadable => raise OSError
  | Some (Rows rows) => ret rows
  end.

(** Lines 57-72. *)
Definition build_index (d : string) : M unit :=
  let* docs := load_domain d in
  match docs with
  | [] => ret tt
  | _ =>
      let tokenized_corpus := tokenize_doc <$> docs in
      match index_error tokenized_corpus with
      | Some e => raise e
      | None =>
          modify (fun st => {| indices := <[d := tokenized_corpus]> (indices st);
                               documents := <[d := docs]> (documents st);
                               loads := loads st |})
      end
  end.

(** Lines 91-98: the inner loop over [enumerate(scores)], from position
    [idx] on. *)
Fixpoint collect (d : string) (docs : list record) (idx : nat)
    (scores : list num) (results : list SearchResult)
  : outcome (list SearchResult) :=
  match scores with
  | [] => Ok results
  | s :: scores' =>
      if ltb zero s then
        match docs !! idx with
        | None => Raise IndexError
        | Some doc =>
            collect d docs (S idx) scores'
              (results ++ [ {| domain := d; content := json_dumps doc;
                               metadata := doc; score := s |} ])
        end
      else collect d docs (S idx) scores' results
  end.

(** Lines 83-98: one iteration of the loop over the target domains. *)
Definition search_domain (query_tokens : list string)
    (results : list SearchResult) (d : string) : M (list SearchResult) :=
  let* st := get in
  (match indices st !! d with
   | None => build_index d
   | Some _ => ret tt
   end) ;;
  let* st := get in
  match indices st !! d with
  | None => ret results
  | Some index =>
      match documents st !! d with
      | None => raise KeyError
      | Some [] => ret results
      | Some docs => lift (collect d docs 0 (get_scores index query_tokens) results)
      end
  end.

(** Lines 100-101: [results.sort(key=lambda x: x.score, reverse=True)].
    Python's sort is stable, also with [reverse=True]: an element moves
    in front of exactly those with a strictly smaller score. *)
Fixpoint insert_desc (r : SearchResult) (l : list SearchResult)
  : list SearchResult :=
  match l with
  | [] => [r]
  | r' :: l' =>
      if ltb (score r) (score r') then r' :: insert_desc r l'
      else r :: r' :: l'
  end.

Definition sort_desc (l : list SearchResult) : list SearchResult :=
  foldr insert_desc [] l.

(** Line 80: [[domain] if domain else self.domains.keys()]. *)
Definition domains_to_search (dom : option string) : list string :=
  match dom with
  | Some d => if String.eqb d "" then domain_keys else [d]
  | None => domain_keys
  end.

(** Lines 74-102. *)
Definition search (query : string) (dom : option string) (max_results : Z)
  : M (list SearchResult) :=
  let query_tokens := tokenize_query query in
  let* results := foldM (search_domain query_tokens) [] (domains_to_search dom) in
  ret (slice_to max_results (sort_desc results)).

(** *** The recommendation document *)

Record checklist_item := {
  item : string;
  rule : string;
  category : value
}.

Record recommendations := {
  rec_product : record;
  rec_style : record;
  rec_color_palette : record;
  rec_typography : record;
  rec_landing_pattern : record;
  rec_charts : list record;
  rec_ux_guidelines : list record
}.

Record alternatives := {
  alt_products : list record;
  alt_styles : list record;
  alt_colors : list record;
  alt_typography : list record;
  alt_landing_patterns : list record
}.

Record design_system := {
  ds_project_name : string;
  ds_query : string;
  ds_recommendations : recommendations;
  ds_alternatives : alternatives;
  ds_anti_patterns : list string;
  ds_checklist : list checklist_item
}.

(** [rs[0].metadata if rs else {}]. *)
Definition first_metadata (rs : list SearchResult) : record :=
  match rs with
  | r :: _ => metadata r
  | [] => []
  end.

(** Lines 145-148: the phrases gathered from the scanned results;
    [None.split] raises [AttributeError]. *)
Fixpoint gather_anti_patterns (rs : list SearchResult) (acc : list string)
  : outcome (list string) :=
  match rs with
  | [] => Ok acc
  | r :: rs' =>
      match rec_get "anti_patterns" (metadata r) with
      | None => gather_anti_patterns rs' acc
      | Some None => Raise AttributeError
      | Some (Some s) => gather_anti_patterns rs' (acc ++ Text.split_on ";" s)
      end
  end.

(** Lines 141-150. *)
Definition _extract_anti_patterns (product_results style_results : list SearchResult)
  : outcome (list string) :=
  match gather_anti_patterns (slice 0 2 product_results) [] with
  | Ok anti_patterns => Ok (slice 0 5 (set_list anti_patterns))
  | Raise e => Raise e
  end.

(** Lines 152-164. *)
Fixpoint _generate_checklist_from (rs : list SearchResult) : list checklist_item :=
  match rs with
  | [] => []
  | r :: rs' =>
      match rec_get "guideline_name" (metadata r), rec_get "rule" (metadata r) with
      | Some (Some g), Some (Some u) =>
          if truthy (Some g) && truthy (Some u) then
            {| item := g; rule := u;
               category := default (Some "general") (rec_get "category" (metadata r)) |}
            :: _generate_checklist_from rs'
          else _generate_checklist_from rs'
      | _, _ => _generate_checklist_from rs'
      end
  end.

Definition _generate_checklist (ux_results : list SearchResult) : list checklist_item :=
  _generate_checklist_from (slice 0 10 ux_results).

(** Lines 116-137: the document assembled from the seven result lists. *)
Definition compose (query project_name : string)
    (product_results style_results color_results typography_results
     landing_results chart_results ux_results : list SearchResult)
  : outcome design_system :=
  match _extract_anti_patterns product_results style_results with
  | Raise e => Raise e
  | Ok anti =>
      Ok {| ds_project_name := project_name;
            ds_query := query;
            ds_recommendations :=
              {| rec_product := first_metadata product_results;
                 rec_style := first_metadata style_results;
                 rec_color_palette := first_metadata color_results;
                 rec_typography := first_metadata typography_results;
                 rec_landing_pattern := first_metadata landing_results;
                 rec_charts := metadata <$> slice 0 3 chart_results;
                 rec_ux_guidelines := metadata <$> slice 0 5 ux_results |};
            ds_alternatives :=
              {| alt_products := metadata <$> slice 1 3 product_results;
                 alt_styles := metadata <$> slice 1 3 style_results;
                 alt_colors := metadata <$> slice 1 3 color_results;
                 alt_typography := metadata <$> slice 1 3 typography_results;
                 alt_landing_patterns := metadata <$> slice 1 3 landing_results |};
            ds_anti_patterns := anti;
            ds_checklist := _generate_checklist ux_results |}
  end.

(** Lines 104-139. *)
Definition design_system_generator (query project_name : string) : M design_system :=
  let* product_results := search query (Some "product") 3 in
  let* style_results := search query (Some "style") 3 in
  let* color_results := search query (Some "color") 3 in
  let* typography_results := search query (Some "typography") 3 in
  let* landing_results := search query (Some "landing") 3 in
  let* chart_results := search query (Some "chart") 5 in
  let* ux_results := search query (Some "ux") 5 in
  lift (compose query project_name product_results style_results color_results
          typography_results landing_results chart_results ux_results).

(** *** Pure descriptions of what a search computes *)

(** The results a category contributes: its rows with a positive score,
    in load order. *)
Definition hits (d : string) (docs : list record) (scores : list num)
  : list SearchResult :=
  omap (fun ds => if ltb zero ds.2
                  then Some {| domain := d; content := json_dumps ds.1;
                               metadata := ds.1; score := ds.2 |}
                  else None)
       (zip docs scores).

Definition category_hits (query_tokens : list string) (d : string)
  : outcome (list SearchResult) :=
  match fs !! csv_name d with
  | None => Ok []
  | Some Unreadable => Raise OSError
  | Some (Rows []) => Ok []
  | Some (Rows docs) =>
      match index_error (tokenize_doc <$> docs) with
      | Some e => Raise e
      | None => Ok (hits d docs (get_scores (tokenize_doc <$> docs) query_tokens))
      end
  end.

(** The pool of a search: the contributions of the target categories in
    iteration order, or the first failure to load or to build. *)
Fixpoint pool (query_tokens : list string) (ds : list string)
  : outcome (list SearchResult) :=
  match ds with
  | [] => Ok []
  | d :: ds' =>
      match category_hits query_tokens d with
      | Raise e => Raise e
      | Ok h =>
          match pool query_tokens ds' with
          | Raise e => Raise e
          | Ok p => Ok (h ++ p)
          end
      end
  end.

(** The number of rows with a positive score over the target
    categories. *)
Definition positive_matches (query_tokens : list string) (ds : list string) : nat :=
  sum_list ((fun d => match fs !! csv_name d with
                      | Some (Rows docs) =>
                          length (filter (fun s => ltb zero s = true)
                                    (get_scores (tokenize_doc <$> docs) query_tokens))
                      | _ => 0%nat
                      end) <$> ds).

(** The engine after one iteration of the loop on [d]. *)
Definition visit (d : string) (st : engine) : engine :=
  match indices st !! d with
  | Some _ => st
  | None =>
      match fs !! csv_name d with
      | Some (Rows (doc :: docs)) =>
          match index_error (tokenize_doc <$> (doc :: docs)) with
          | None =>
              {| indices := <[d := tokenize_doc <$> (doc :: docs)]> (indices st);
                 documents := <[d := doc :: docs]> (documents st);
                 loads := loads st ++ [d] |}
          | Some _ => {| indices := indices st; documents := documents st;
                         loads := loads st ++ [d] |}
          end
      | _ => {| indices := indices st; documents := documents st;
                loads := loads st ++ [d] |}
      end
  end.

(** The engine after the loop: it stops at the first failure. *)
Fixpoint visit_all (query_tokens : list string) (ds : list string) (st : engine) : engine :=
  match ds with
  | [] => st
  | d :: ds' =>
      match category_hits query_tokens d with
      | Raise _ => visit d st
      | Ok _ => visit_all query_tokens ds' (visit d st)
      end
  end.

(** The caches agree with the data directory: every cached category was
    built, without failure, from the non-empty rows of its file. *)
Definition wf (st : engine) : Prop :=
  forall d index, indices st !! d = Some index ->
    exists docs, fs !! csv_name d = Some (Rows docs) /\ docs <> [] /\
                 documents st !! d = Some docs /\ index = tokenize_doc <$> docs /\
                 index_error index = None.

(** The category neither fails to load nor fails to build: its file is
    missing, or it can be read and the scoring library accepts its rows
    when there are any. *)
Definition loads_and_builds (d : string) : Prop :=
  match fs !! csv_name d with
  | None => True
  | Some Unreadable => False
  | Some (Rows []) => True
  | Some (Rows docs) => index_error (tokenize_doc <$> docs) = None
  end.

(** No target category fails to load or to build. *)
Definition loadable (ds : list string) : Prop := Forall loads_and_builds ds.

(** Two scores tie when neither is below the other. *)
Definition tie (s : num) (r : SearchResult) : bool :=
  negb (ltb s (score r)) && negb (ltb (score r) s).

(** [a] does not rank below [b]. *)
Definition ge_score (a b : SearchResult) : Prop := ltb (score a) (score b) = false.

Definition positive (r : SearchResult) : Prop := ltb zero (score r) = true.

(** The order of [set_list] is arbitrary, its elements are not: those
    of the list, each once. *)
Definition set_order (f : list string -> list string) : Prop :=
  forall l, NoDup (f l) /\ forall x, x ∈ f l <-> x ∈ l.

(** What a filtered search returns, as a function of the data directory
    alone. *)
Definition results_for (query d : string) (k : Z) : outcome (list SearchResult) :=
  match pool (tokenize_query query) [d] with
  | Ok p => Ok (slice_to k (sort_desc p))
  | Raise e => Raise e
  end.

Definition obind {A B} (o : outcome A) (f : A -> outcome B) : outcome B :=
  match o with
  | Ok a => f a
  | Raise e => Raise e
  end.

(** The outcome of [design_system_generator], without the engine. *)
Definition generated (query project_name : string) : outcome design_system :=
  obind (results_for query "product" 3) (fun product_results =>
  obind (results_for query "style" 3) (fun style_results =>
  obind (results_for query "color" 3) (fun color_results =>
  obind (results_for query "typography" 3) (fun typography_results =>
  obind (results_for query "landing" 3) (fun landing_results =>
  obind (results_for query "chart" 5) (fun chart_results =>
  obind (results_for query "ux" 5) (fun ux_results =>
  compose query project_name product_results style_results color_results
    typography_results landing_results chart_results ux_results))))))).

(** The rows of the product file never bind the anti-pattern field to
    [None]. *)
Definition anti_patterns_are_strings : Prop :=
  forall rows, fs !! "products.csv" = Some (Rows rows) ->
    Forall (fun doc => rec_get "anti_patterns" doc <> Some None) rows.

(** The checklist entry [e] was made from a result of [rs] that has
    both required fields. *)
Definition entry_from (rs : list SearchResult) (e : checklist_item) : Prop :=
  exists r, r ∈ rs /\
    rec_get "guideline_name" (metadata r) = Some (Some (item e)) /\ item e <> "" /\
    rec_get "rule" (metadata r) = Some (Some (rule e)) /\ rule e <> "" /\
    category e = default (Some "general") (rec_get "category" (metadata r)).

(** *** Assumptions on the parameters *)

(** [<] on the scores is a strict weak order, as on floats that are not
    NaN (a NaN never passes the test [score > 0]). *)
Hypothesis ltb_asym : forall a b, ltb a b = true -> ltb b a = false.
Hypothesis ltb_negtrans :
  forall a b c, ltb a b = false -> ltb b c = false -> ltb a c = false.

(** [get_scores] returns one score per document of the corpus. *)
Hypothesis get_scores_length :
  forall corpus q, length (get_scores corpus q) = length corpus.

(** *** The loop computes the pool *)

Lemma hits_nil_scores d docs : hits d docs [] = [].
Proof. unfold hits. by destruct docs. Qed.

Lemma hits_nil_docs d scores : hits d [] scores = [].
Proof. reflexivity. Qed.

Lemma hits_cons d doc docs s scores :
  hits d (doc :: docs) (s :: scores) =
  (if ltb zero s
   then [ {| domain := d; content := json_dumps doc; metadata := doc; score := s |} ]
   else []) ++ hits d docs scores.
Proof. unfold hits. simpl. by destruct (ltb zero s). Qed.

Lemma collect_hits d docs scores : forall idx results,
  (idx + length scores <= length docs)%nat ->
  collect d docs idx scores results = Ok (results ++ hits d (drop idx docs) scores).
Proof.
  induction scores as [|s scores IH]; intros idx results Hlen; simpl in *.
  - by rewrite hits_nil_scores, app_nil_r.
  - destruct (lookup_lt_is_Some_2 docs idx) as [doc Hdoc]; [lia|].
    rewrite (drop_S _ _ _ Hdoc), hits_cons, Hdoc.
    destruct (ltb zero s).
    + rewrite IH by lia. by rewrite <- app_assoc.
    + rewrite IH by lia. done.
Qed.

Lemma wf_init : wf init.
Proof. intros d index H. unfold init in H. simpl in H. by rewrite lookup_empty in H. Qed.

Lemma wf_visit d st : wf st -> wf (visit d st).
Proof.
  intros Hwf. unfold visit.
  destruct (indices st !! d) eqn:Hd; [done|].
  destruct (fs !! csv_name d) as [[|[|doc docs]]|] eqn:Hfs; try exact Hwf.
  destruct (index_error (tokenize_doc <$> doc :: docs)) eqn:Hbuild; [exact Hwf|].
  intros d' index. simpl.
  destruct (decide (d = d')) as [<-|Hne].
  - rewrite lookup_insert_eq. intros [= <-].
    exists (doc :: docs). by rewrite lookup_insert_eq.
  - rewrite lookup_insert_ne by done. intros H.
    destruct (Hwf _ _ H) as (docs' & ? & ? & ? & ? & ?).
    exists docs'. by rewrite lookup_insert_ne.
Qed.

Lemma search_domain_spec q results d st :
  wf st ->
  search_domain q results d st =
  (match category_hits q d with
   | Ok h => Ok (results ++ h)
   | Raise e => Raise e
   end, visit d st).
Proof.
  intros Hwf. unfold search_domain, visit, category_hits, bind, get.
  destruct (indices st !! d) as [index|] eqn:Hd.
  - destruct (Hwf _ _ Hd) as (docs & Hfs & Hne & Hdocs & -> & Hbuild).
    unfold ret. rewrite Hd, Hdocs, Hfs.
    destruct docs as [|doc docs]; [done|]. rewrite Hbuild.
    unfold lift. rewrite collect_hits; [done|].
    rewrite get_scores_length, length_fmap. simpl. lia.
  - unfold build_index, load_domain, bind, modify.
    destruct (fs !! csv_name d) as [[|[|doc docs]]|] eqn:Hfs.
    + done.
    + simpl. unfold ret. simpl. rewrite Hd. by rewrite app_nil_r.
    + cbn [raise ret]. cbv zeta.
      destruct (index_error (tokenize_doc <$> doc :: docs)) eqn:Hbuild; [done|].
      cbn [indices documents]. rewrite !lookup_insert_eq. unfold lift.
      rewrite collect_hits; [done|].
      rewrite get_scores_length. simpl. rewrite length_fmap. lia.
    + simpl. unfold ret. simpl. rewrite Hd. by rewrite app_nil_r.
Qed.

Lemma wf_visit_all q ds : forall st, wf st -> wf (visit_all q ds st).
Proof.
  induction ds as [|d ds IH]; intros st Hwf; simpl; [done|].
  destruct (category_hits q d); auto using wf_visit.
Qed.

Lemma foldM_search_domain q ds : forall results st,
  wf st ->
  foldM (search_domain q) results ds st =
  (match pool q ds with
   | Ok p => Ok (results ++ p)
   | Raise e => Raise e
   end, visit_all q ds st).
Proof.
  induction ds as [|d ds IH]; intros results st Hwf; simpl.
  - unfold ret. by rewrite app_nil_r.
  - unfold bind. rewrite search_domain_spec by done.
    destruct (category_hits q d) as [h|e]; [|done].
    rewrite IH by auto using wf_visit.
    destruct (pool q ds); [|done]. by rewrite app_assoc.
Qed.

(** What [search] returns and the engine it leaves, from any engine
    whose caches agree with the data directory. *)
Lemma search_spec query dom k st :
  wf st ->
  search query dom k st =
  (match pool (tokenize_query query) (domains_to_search dom) with
   | Ok p => Ok (slice_to k (sort_desc p))
   | Raise e => Raise e
   end,
   visit_all (tokenize_query query) (domains_to_search dom) st).
Proof.
  intros Hwf. unfold search, bind.
  rewrite foldM_search_domain by done.
  by destruct (pool _ _).
Qed.

Lemma wf_search query dom k st :
  wf st -> wf (search query dom k st).2.
Proof. intros Hwf. rewrite search_spec by done. by apply wf_visit_all. Qed.

(** *** The sort: a stable, descending permutation *)

Lemma insert_desc_perm r l : insert_desc r l ≡ₚ r :: l.
Proof.
  induction l as [|r' l IH]; simpl; [done|].
  destruct (ltb (score r) (score r')); [|done].
  rewrite IH. apply perm_swap.
Qed.

Lemma sort_desc_perm l : sort_desc l ≡ₚ l.
Proof.
  induction l as [|r l IH]; simpl; [done|].
  by rewrite insert_desc_perm, IH.
Qed.

Lemma insert_desc_sorted r l :
  StronglySorted ge_score l -> StronglySorted ge_score (insert_desc r l).
Proof.
  induction 1 as [|r' l Hsorted IH Hall]; simpl.
  - repeat constructor.
  - destruct (ltb (score r) (score r')) eqn:Hlt.
    + constructor; [done|].
      rewrite insert_desc_perm. constructor; [|done].
      by apply ltb_asym.
    + constructor; [by constructor|].
      constructor; [done|].
      eapply Forall_impl; [exact Hall|].
      intros x Hx. by eapply ltb_negtrans.
Qed.

Lemma sort_desc_sorted l : StronglySorted ge_score (sort_desc l).
Proof.
  induction l as [|r l IH]; simpl; [constructor|].
  by apply insert_desc_sorted.
Qed.

(** Two results of which one ranks strictly below the other do not both
    tie with the same score. *)
Lemma tie_exclusive s r r' :
  ltb (score r) (score r') = true -> tie s r = true -> tie s r' = true -> False.
Proof.
  unfold tie. intros Hlt [_ H1]%andb_true_iff [H2 _]%andb_true_iff.
  apply negb_true_iff in H1, H2.
  by rewrite (ltb_negtrans _ _ _ H1 H2) in Hlt.
Qed.

Lemma insert_desc_stable s r l :
  filter (fun x => tie s x = true) (insert_desc r l) =
  filter (fun x => tie s x = true) (r :: l).
Proof.
  induction l as [|r' l IH]; simpl; [done|].
  destruct (ltb (score r) (score r')) eqn:Hlt; [|done].
  rewrite (filter_cons _ r'), IH, !(filter_cons _ r), (filter_cons _ r').
  destruct (decide (tie s r = true)), (decide (tie s r' = true)); try done.
  by destruct (tie_exclusive s r r').
Qed.

Lemma sort_desc_stable s l :
  filter (fun x => tie s x = true) (sort_desc l) =
  filter (fun x => tie s x = true) l.
Proof.
  induction l as [|r l IH]; simpl; [done|].
  by rewrite insert_desc_stable, !filter_cons, IH.
Qed.

(** *** Python slices *)

Lemma slice_to_prefix {A} (m : Z) (l : list A) : slice_to m l `prefix_of` l.
Proof. unfold slice_to. destruct (0 <=? m); apply prefix_take. Qed.

Lemma slice_to_length_nonneg {A} (m : Z) (l : list A) :
  0 <= m -> length (slice_to m l) = Nat.min (Z.to_nat m) (length l).
Proof.
  intros Hm. unfold slice_to.
  destruct (Z.leb_spec 0 m); [|lia]. apply length_take.
Qed.

Lemma slice_to_length_neg {A} (m : Z) (l : list A) :
  m < 0 -> length (slice_to m l) = (length l - Z.to_nat (- m))%nat.
Proof.
  intros Hm. unfold slice_to.
  destruct (Z.leb_spec 0 m); [lia|]. rewrite length_take. lia.
Qed.

Lemma slice_to_nil {A} (m : Z) : slice_to m (@nil A) = [].
Proof. unfold slice_to. destruct (0 <=? m); apply take_nil. Qed.

Lemma filter_prefix {A} (P : A -> Prop) `{forall x, Decision (P x)} (l1 l2 : list A) :
  l1 `prefix_of` l2 -> filter P l1 `prefix_of` filter P l2.
Proof. intros [k ->]. rewrite filter_app. by eexists. Qed.

Lemma slice_length {A} (i j : nat) (l : list A) : (length (slice i j l) <= j - i)%nat.
Proof. unfold slice. rewrite length_take. lia. Qed.

(** *** Facts about the pool *)

Lemma hits_positive d docs scores : Forall positive (hits d docs scores).
Proof.
  revert scores. induction docs as [|doc docs IH]; intros [|s scores];
    try (rewrite ?hits_nil_scores; by constructor).
  rewrite hits_cons. apply Forall_app. split; [|apply IH].
  destruct (ltb zero s) eqn:Hs; by repeat constructor.
Qed.

Lemma hits_length d docs scores :
  length scores = length docs ->
  length (hits d docs scores) = length (filter (fun s => ltb zero s = true) scores).
Proof.
  revert scores. induction docs as [|doc docs IH]; intros [|s scores] Hlen;
    try done.
  rewrite hits_cons, length_app, filter_cons, IH by (simpl in Hlen; lia).
  destruct (decide (ltb zero s = true)) as [->|Hs]; [done|].
  by apply not_true_is_false in Hs as ->.
Qed.

(** A category contributes results only from a file with rows whose
    index was built. *)
Lemma category_hits_inv q d h :
  category_hits q d = Ok h ->
  h = [] \/
  exists docs, fs !! csv_name d = Some (Rows docs) /\ docs <> [] /\
               index_error (tokenize_doc <$> docs) = None /\
               h = hits d docs (get_scores (tokenize_doc <$> docs) q).
Proof.
  unfold category_hits.
  destruct (fs !! csv_name d) as [[|[|doc docs]]|]; try (intros [= <-]; by left).
  destruct (index_error _) eqn:Hbuild; [done|]. intros [= <-].
  right. by exists (doc :: docs).
Qed.

Lemma category_hits_positive q d h : category_hits q d = Ok h -> Forall positive h.
Proof.
  intros [->|(docs & _ & _ & _ & ->)]%category_hits_inv;
    [constructor | apply hits_positive].
Qed.

Lemma category_hits_length q d h :
  category_hits q d = Ok h -> length h = positive_matches q [d].
Proof.
  unfold category_hits, positive_matches. simpl.
  destruct (fs !! csv_name d) as [[|[|doc docs]]|]; try (by intros [= <-]).
  - intros [= <-]. simpl.
    pose proof (get_scores_length [] q) as Hlen.
    by destruct (get_scores [] q).
  - destruct (index_error _); [done|]. intros [= <-].
    rewrite hits_length; [by rewrite Nat.add_0_r|].
    rewrite get_scores_length. simpl. f_equal. apply length_fmap.
Qed.

Lemma pool_cons_inv q d ds p :
  pool q (d :: ds) = Ok p ->
  exists h p', category_hits q d = Ok h /\ pool q ds = Ok p' /\ p = h ++ p'.
Proof.
  simpl. destruct (category_hits q d) as [h|]; [|done].
  destruct (pool q ds) as [p'|]; [|done]. intros [= <-]. by eauto.
Qed.

Lemma pool_positive q ds : forall p, pool q ds = Ok p -> Forall positive p.
Proof.
  induction ds as [|d ds IH]; intros p Hp.
  - injection Hp as <-. constructor.
  - apply pool_cons_inv in Hp as (h & p' & Hh & Hp' & ->).
    apply Forall_app. eauto using category_hits_positive.
Qed.

Lemma pool_length q ds : forall p, pool q ds = Ok p -> length p = positive_matches q ds.
Proof.
  induction ds as [|d ds IH]; intros p Hp.
  - by injection Hp as <-.
  - apply pool_cons_inv in Hp as (h & p' & Hh & Hp' & ->).
    rewrite length_app, (IH p' Hp'), (category_hits_length _ _ _ Hh).
    unfold positive_matches. simpl. by rewrite Nat.add_0_r.
Qed.

Lemma category_hits_loadable q d :
  loads_and_builds d <-> exists h, category_hits q d = Ok h.
Proof.
  unfold loads_and_builds, category_hits.
  destruct (fs !! csv_name d) as [[|[|doc docs]]|].
  - split; [done|]. by intros [h ?].
  - split; [by eauto|done].
  - destruct (index_error _); split; try done; [by intros [h ?]|by eauto].
  - split; [by eauto|done].
Qed.

Lemma pool_loadable q ds : loadable ds <-> exists p, pool q ds = Ok p.
Proof.
  induction ds as [|d ds IH]; simpl.
  - split; [by eauto|]. intros _. constructor.
  - unfold loadable in *. rewrite Forall_cons, IH, (category_hits_loadable q d).
    split.
    + intros [[h ->] [p ->]]. by eauto.
    + destruct (category_hits q d) as [h|]; [|by intros [? ?]].
      destruct (pool q ds) as [p|]; [|by intros [? ?]]. by eauto.
Qed.

Lemma pool_unreadable q ds d :
  d ∈ ds -> fs !! csv_name d = Some Unreadable -> exists e, pool q ds = Raise e.
Proof.
  intros Hin Hd. destruct (pool q ds) as [p|e] eqn:Hp; [|by eauto].
  assert (loadable ds) as Hl by (apply (pool_loadable q); by eauto).
  unfold loadable in Hl. rewrite Forall_forall in Hl. specialize (Hl d Hin).
  unfold loads_and_builds in Hl. by rewrite Hd in Hl.
Qed.

Lemma pool_unreadable_first q before d after :
  loadable before -> fs !! csv_name d = Some Unreadable ->
  pool q (before ++ d :: after) = Raise OSError.
Proof.
  intros Hl Hd. induction Hl as [|d' before Hd' _ IH]; simpl.
  - unfold category_hits. by rewrite Hd.
  - apply (category_hits_loadable q) in Hd' as [h ->]. by rewrite IH.
Qed.

Lemma search_returns query dom k st :
  wf st -> loadable (domains_to_search dom) ->
  exists rs, (search query dom k st).1 = Ok rs.
Proof.
  intros Hwf Hl. rewrite search_spec by done.
  apply (pool_loadable (tokenize_query query)) in Hl as [p ->]. by eexists.
Qed.

Lemma search_inv query dom k st rs :
  wf st -> (search query dom k st).1 = Ok rs ->
  exists p, pool (tokenize_query query) (domains_to_search dom) = Ok p /\
            rs = slice_to k (sort_desc p).
Proof.
  intros Hwf. rewrite search_spec by done. simpl.
  destruct (pool _ _) as [p|]; [|done]. intros [= <-]. by eexists.
Qed.

Lemma search_returns_loadable query dom k st rs :
  wf st -> (search query dom k st).1 = Ok rs -> loadable (domains_to_search dom).
Proof.
  intros Hwf (p & Hp & _)%search_inv; [|done].
  apply (pool_loadable (tokenize_query query)). by eauto.
Qed.

Lemma search_raises query dom k st d :
  wf st -> d ∈ domains_to_search dom -> fs !! csv_name d = Some Unreadable ->
  exists e, (search query dom k st).1 = Raise e.
Proof.
  intros Hwf Hin Hd. rewrite search_spec by done. simpl.
  destruct (pool_unreadable (tokenize_query query) _ _ Hin Hd) as [e ->]. by eauto.
Qed.

Lemma search_raises_first query dom k st before d after :
  wf st -> domains_to_search dom = before ++ d :: after ->
  loadable before -> fs !! csv_name d = Some Unreadable ->
  (search query dom k st).1 = Raise OSError.
Proof.
  intros Hwf Hds Hl Hd. rewrite search_spec, Hds by done. simpl.
  by rewrite pool_unreadable_first.
Qed.

Lemma assoc_None d (l : list (string * string)) : d ∉ fst <$> l -> assoc d l = None.
Proof.
  induction l as [|[k v] l IH]; simpl; [done|].
  intros [Hne Hl]%not_elem_of_cons.
  destruct (String.eqb_spec d k); [done|]. auto.
Qed.

Lemma csv_name_unknown d : d ∉ domain_keys -> csv_name d = d +:+ ".csv".
Proof. intros Hd. unfold csv_name. by rewrite assoc_None. Qed.

Lemma domains_to_search_filtered d : d <> "" -> domains_to_search (Some d) = [d].
Proof. intros Hd. simpl. by destruct (String.eqb_spec d ""). Qed.

Lemma sort_desc_length l : length (sort_desc l) = length l.
Proof. by rewrite sort_desc_perm. Qed.

Lemma visit_uncached_empty d st :
  wf st ->
  fs !! csv_name d = None \/ fs !! csv_name d = Some (Rows []) ->
  indices st !! d = None /\
  visit d st = {| indices := indices st; documents := documents st;
                  loads := loads st ++ [d] |}.
Proof.
  intros Hwf Hfs. unfold visit.
  destruct (indices st !! d) as [index|] eqn:Hd.
  - destruct (Hwf _ _ Hd) as (docs & Hdocs & Hne & _).
    destruct Hfs as [Hfs|Hfs]; rewrite Hfs in Hdocs; [done|].
    by injection Hdocs as <-.
  - split; [done|]. by destruct Hfs as [-> | ->].
Qed.

(** *** What a search does to the engine *)

(** The category is not cached by the engine. *)
Definition uncached (st : engine) (d : string) : Prop := indices st !! d = None.

#[local] Instance uncached_dec st d : Decision (uncached st d).
Proof. unfold uncached. apply _. Defined.

(** The number of calls of [load_domain] for the category so far. *)
Definition loader_calls (d : string) (st : engine) : nat :=
  length (filter (fun x => x = d) (loads st)).

Lemma domains_to_search_NoDup dom : NoDup (domains_to_search dom).
Proof.
  assert (NoDup domain_keys) as Hkeys.
  { apply (bool_decide_unpack _). by vm_compute. }
  destruct dom as [d|]; simpl; [|done].
  destruct (String.eqb d ""); [done|]. apply NoDup_singleton.
Qed.

Lemma filter_ext_elem {A} (P Q : A -> Prop) `{forall x, Decision (P x)}
    `{forall x, Decision (Q x)} (l : list A) :
  (forall x, x ∈ l -> (P x <-> Q x)) -> filter P l = filter Q l.
Proof.
  induction l as [|x l IH]; intros Hext; [done|].
  rewrite !filter_cons, IH by (intros y Hy; apply Hext; by right).
  destruct (decide (P x)) as [HP|HP], (decide (Q x)) as [HQ|HQ]; try done.
  - destruct HQ. by apply (Hext x); [left|].
  - destruct HP. by apply (Hext x); [left|].
Qed.

Lemma visit_indices_other d d' st :
  d <> d' -> indices (visit d st) !! d' = indices st !! d'.
Proof.
  intros Hne. unfold visit.
  destruct (indices st !! d); [done|].
  destruct (fs !! csv_name d) as [[|[|doc docs]]|]; try done.
  destruct (index_error _); [done|].
  simpl. by rewrite lookup_insert_ne.
Qed.

Lemma visit_loads d st :
  loads (visit d st) = loads st ++ filter (uncached st) [d].
Proof.
  unfold visit. rewrite filter_cons, filter_nil.
  destruct (decide (uncached st d)) as [Hu|Hu]; unfold uncached in Hu.
  - rewrite Hu. destruct (fs !! csv_name d) as [[|[|doc docs]]|]; try done.
    by destruct (index_error _).
  - destruct (indices st !! d); [by rewrite app_nil_r|done].
Qed.

Lemma visit_all_loads q ds : forall st,
  loadable ds -> NoDup ds ->
  loads (visit_all q ds st) = loads st ++ filter (uncached st) ds.
Proof.
  induction ds as [|d ds IH]; intros st Hl Hnd; simpl.
  - by rewrite filter_nil, app_nil_r.
  - apply Forall_cons in Hl as [Hd Hl]. apply NoDup_cons in Hnd as [Hnotin Hnd].
    apply (category_hits_loadable q) in Hd as [h ->].
    rewrite IH, visit_loads by done.
    rewrite (filter_cons _ d ds), <- app_assoc. f_equal.
    rewrite (filter_ext_elem (uncached (visit d st)) (uncached st) ds).
    + rewrite filter_cons, filter_nil. by destruct (decide (uncached st d)).
    + intros d' Hd'. unfold uncached. rewrite visit_indices_other; [done|].
      by intros ->.
Qed.

Lemma visit_all_indices q ds : forall st d,
  loadable ds ->
  indices (visit_all q ds st) !! d =
  match indices st !! d with
  | Some index => Some index
  | None =>
      if bool_decide (d ∈ ds) then
        match fs !! csv_name d with
        | Some (Rows (doc :: docs)) => Some (tokenize_doc <$> (doc :: docs))
        | _ => None
        end
      else None
  end.
Proof.
  induction ds as [|d' ds IH]; intros st d Hl; simpl.
  - by destruct (indices st !! d).
  - apply Forall_cons in Hl as [Hd' Hl].
    pose proof Hd' as [h ->]%(category_hits_loadable q).
    rewrite IH by done.
    destruct (decide (d' = d)) as [->|Hne].
    + assert (bool_decide (d ∈ d :: ds) = true) as ->
        by (apply bool_decide_eq_true_2; by left).
      unfold visit, loads_and_builds in *.
      destruct (indices st !! d) as [index|] eqn:Hd; [by rewrite Hd|].
      destruct (fs !! csv_name d) as [[|[|doc docs]]|] eqn:Hfs; [done| | |].
      * cbn [indices]. rewrite Hd. by destruct (bool_decide _).
      * rewrite Hd'. cbn [indices]. by rewrite lookup_insert_eq.
      * cbn [indices]. rewrite Hd. by destruct (bool_decide _).
    + rewrite visit_indices_other by done.
      destruct (indices st !! d); [done|].
      assert (bool_decide (d ∈ d' :: ds) = bool_decide (d ∈ ds)) as ->; [|done].
      apply bool_decide_ext. rewrite elem_of_cons.
      split; [intros [Heq|Hin]; [by subst|done] | by right].
Qed.

Lemma loader_calls_app d st l :
  length (filter (fun x => x = d) (loads st ++ l)) =
  (loader_calls d st + length (filter (fun x => x = d) l))%nat.
Proof. unfold loader_calls. by rewrite filter_app, length_app. Qed.

Lemma count_in_filter (P : string -> Prop) `{forall x, Decision (P x)} d ds :
  NoDup ds ->
  length (filter (fun x => x = d) (filter P ds)) =
  if bool_decide (P d /\ d ∈ ds) then 1%nat else 0%nat.
Proof.
  induction 1 as [|x ds Hx Hnd IH].
  - rewrite bool_decide_eq_false_2; [done|]. by intros [_ ?%elem_of_nil].
  - rewrite (filter_cons P). destruct (decide (x = d)) as [->|Hne].
    + destruct (decide (P d)) as [HP|HP].
      * rewrite filter_cons. destruct (decide (d = d)); [|done].
        cbn [length]. rewrite IH.
        rewrite (bool_decide_eq_false_2 (P d /\ d ∈ ds)) by (by intros [_ ?]).
        rewrite bool_decide_eq_true_2; [done|]. split; [done|by left].
      * rewrite IH. rewrite !bool_decide_eq_false_2; [done| |]; by intros [? _].
    + assert (bool_decide (P d /\ d ∈ x :: ds) = bool_decide (P d /\ d ∈ ds)) as ->.
      { apply bool_decide_ext. rewrite elem_of_cons.
        split; [intros [? [->|?]]; by eauto|]. intros [? ?]; by eauto. }
      destruct (decide (P x)); [|done].
      rewrite filter_cons. by destruct (decide (x = d)).
Qed.

(** *** Properties of [search] *)

(** C5: whatever the query, the category filter and [max_results], the
    sequence [search] returns is sorted by non-increasing score, holds
    only results of strictly positive score, and lists the results of
    equal score in the order of the pool, that is category iteration
    order and then load order; it does return when no target category
    fails to load or to build. *)
Theorem search_sorted_positive_stable query dom k st :
  wf st ->
  (loadable (domains_to_search dom) -> exists rs, (search query dom k st).1 = Ok rs) /\
  forall rs, (search query dom k st).1 = Ok rs ->
    StronglySorted ge_score rs /\ Forall positive rs /\
    exists p, pool (tokenize_query query) (domains_to_search dom) = Ok p /\
      forall s, filter (fun r => tie s r = true) rs
                  `prefix_of` filter (fun r => tie s r = true) p.
Proof.
  intros Hwf. split; [by apply search_returns|].
  intros rs (p & Hp & ->)%search_inv; [|done].
  destruct (slice_to_prefix k (sort_desc p)) as [rest Hrest].
  pose proof (sort_desc_sorted p) as Hsorted.
  pose proof (pool_positive _ _ _ Hp) as Hpos.
  rewrite <- (sort_desc_perm p) in Hpos.
  rewrite Hrest in Hsorted, Hpos.
  split; [by eapply StronglySorted_app_1_l|].
  split; [by apply Forall_app in Hpos as [? _]|].
  exists p. split; [done|]. intros s.
  rewrite <- (sort_desc_stable s p).
  apply filter_prefix, slice_to_prefix.
Qed.

(** C6, amended: for every query and every [k >= 0], an unfiltered
    search with [max_results = k] returns at most [k] results, and
    exactly as many as there are rows of strictly positive score over
    all categories when that count is at most [k]; it does return when
    no category fails to load or to build. *)
Theorem search_unfiltered_cap query k st :
  wf st -> 0 <= k ->
  (loadable domain_keys -> exists rs, (search query None k st).1 = Ok rs) /\
  forall rs, (search query None k st).1 = Ok rs ->
    Z.of_nat (length rs) <= k /\
    (Z.of_nat (positive_matches (tokenize_query query) domain_keys) <= k ->
     length rs = positive_matches (tokenize_query query) domain_keys).
Proof.
  intros Hwf Hk. split; [by apply (search_returns query None)|].
  intros rs (p & Hp & ->)%search_inv; [|done].
  rewrite slice_to_length_nonneg, sort_desc_length by done.
  pose proof (pool_length _ _ _ Hp) as Hlen.
  change (domains_to_search None) with domain_keys in Hlen.
  rewrite <- Hlen. lia.
Qed.

(** C8, amended: for every query and every negative [max_results = m],
    [m] makes no search fail: the search raises exactly what it raises
    for any other [max_results], and returns when no target category
    fails to load or to build.  What it returns is not the empty list
    of a cap of zero but the sorted pool without its last [|m|]
    elements: with the elements removed it is what the search returns
    for a cap of the size of the pool, a permutation of the pool of
    positive-score results sorted by non-increasing score with ties in
    pool order; hence [n - 1] results for [m = -1] and a pool of
    [n > 0]. *)
Theorem search_negative_cap query dom m st :
  wf st -> m < 0 ->
  (forall k e, (search query dom m st).1 = Raise e <->
               (search query dom k st).1 = Raise e) /\
  (loadable (domains_to_search dom) -> exists rs, (search query dom m st).1 = Ok rs) /\
  forall rs, (search query dom m st).1 = Ok rs ->
    exists p removed,
      pool (tokenize_query query) (domains_to_search dom) = Ok p /\
      (search query dom (Z.of_nat (length p)) st).1 = Ok (rs ++ removed) /\
      rs ++ removed ≡ₚ p /\
      StronglySorted ge_score (rs ++ removed) /\
      (forall s, filter (fun r => tie s r = true) (rs ++ removed) =
                 filter (fun r => tie s r = true) p) /\
      length removed = Nat.min (Z.to_nat (- m)) (length p) /\
      length rs = (length p - Z.to_nat (- m))%nat /\
      (m = -1 -> p <> [] -> S (length rs) = length p).
Proof.
  intros Hwf Hm. split; [|split; [by apply search_returns|]].
  - intros k e. rewrite !search_spec by done. simpl.
    by destruct (pool _ _).
  - intros rs (p & Hp & ->)%search_inv; [|done].
    exists p, (drop (length p - Z.to_nat (- m)) (sort_desc p)).
    assert (slice_to m (sort_desc p) = take (length p - Z.to_nat (- m)) (sort_desc p))
      as ->.
    { unfold slice_to. destruct (Z.leb_spec 0 m); [lia|]. by rewrite sort_desc_length. }
    rewrite take_drop. split; [done|]. split.
    { rewrite search_spec, Hp by done. simpl. f_equal.
      unfold slice_to. destruct (Z.leb_spec 0 (Z.of_nat (length p))); [|lia].
      apply take_ge. rewrite sort_desc_length. lia. }
    split; [apply sort_desc_perm|]. split; [apply sort_desc_sorted|].
    split; [intros s; apply sort_desc_stable|].
    rewrite length_drop, length_take, sort_desc_length.
    repeat split; try lia.
    intros -> Hne. destruct p; [done|]. simpl. lia.
Qed.

(** C3, amended: the engine handles no loader failure.  When the file
    of a target category cannot be read, the search returns no result
    at all, for an unfiltered search over all categories as for a search
    filtered on that category: it raises, and what it raises is the
    loader's error when no target category before that one fails to
    load or to build. *)
Theorem search_loader_failure_propagates query dom k st d :
  wf st -> d ∈ domains_to_search dom -> fs !! csv_name d = Some Unreadable ->
  (exists e, (search query dom k st).1 = Raise e) /\
  (forall before after,
     domains_to_search dom = before ++ d :: after -> loadable before ->
     (search query dom k st).1 = Raise OSError).
Proof.
  intros Hwf Hin Hd. split; [by eapply search_raises|].
  intros before after Hds Hl. by eapply search_raises_first.
Qed.

(** C4, amended: only a built, non-empty index is cached.  A search
    filtered on a category whose file is missing or has no rows returns
    no result, caches nothing and calls the loader once more.  More
    generally, over every search that targets the category and returns:
    if its file is missing or has no rows, nothing is cached for it and
    the loader is called for it once more, every time; if its index is
    cached, the index is kept and the loader is not called for it; if
    it is not cached and its file has rows, the search caches its index
    after one call of the loader. *)
Theorem search_caches_only_built_indices query dom d k st :
  wf st -> d ∈ domains_to_search dom ->
  (d <> "" ->
   fs !! csv_name d = None \/ fs !! csv_name d = Some (Rows []) ->
   search query (Some d) k st =
   (Ok [], {| indices := indices st; documents := documents st;
              loads := loads st ++ [d] |})) /\
  (forall rs, (search query dom k st).1 = Ok rs ->
     (fs !! csv_name d = None \/ fs !! csv_name d = Some (Rows []) ->
      indices (search query dom k st).2 !! d = None /\
      loader_calls d (search query dom k st).2 = S (loader_calls d st)) /\
     (is_Some (indices st !! d) ->
      indices (search query dom k st).2 !! d = indices st !! d /\
      loader_calls d (search query dom k st).2 = loader_calls d st) /\
     (forall doc docs, indices st !! d = None ->
        fs !! csv_name d = Some (Rows (doc :: docs)) ->
        indices (search query dom k st).2 !! d = Some (tokenize_doc <$> doc :: docs) /\
        loader_calls d (search query dom k st).2 = S (loader_calls d st))).
Proof.
  intros Hwf Hin. split.
  - intros Hd Hfs. rewrite search_spec, domains_to_search_filtered by done.
    simpl. unfold category_hits.
    destruct (visit_uncached_empty d st Hwf Hfs) as [_ ->].
    destruct Hfs as [-> | ->]; simpl; by rewrite slice_to_nil.
  - intros rs Hrs.
    pose proof (search_returns_loadable _ _ _ _ _ Hwf Hrs) as Hl.
    rewrite search_spec by done. cbn [snd].
    unfold loader_calls at 1 3 5.
    rewrite visit_all_loads, loader_calls_app, count_in_filter,
      visit_all_indices by auto using domains_to_search_NoDup.
    rewrite (bool_decide_eq_true_2 (d ∈ domains_to_search dom)) by done.
    split; [|split].
    + intros Hfs. destruct (visit_uncached_empty d st Hwf Hfs) as [Hnone _].
      rewrite Hnone. rewrite bool_decide_eq_true_2 by done.
      split; [|lia]. by destruct Hfs as [-> | ->].
    + intros [index Hindex]. rewrite Hindex.
      rewrite bool_decide_eq_false_2; [split; [done|lia]|].
      unfold uncached. rewrite Hindex. by intros [? _].
    + intros doc docs Hnone Hfs. rewrite Hnone, Hfs.
      rewrite bool_decide_eq_true_2 by done. split; [done|lia].
Qed.

(** C9, amended: for every non-empty domain string [d] outside the
    seven fixed categories, [search] filtered on [d] reads the file
    named [d.csv] and nothing else decides its outcome: the empty list
    when no such file exists or it has no rows, the loader's error when
    the file cannot be read, the error of the scoring library when it
    refuses to index the rows, and otherwise the ranked positive-score
    rows of that file.  The empty string is no filter: a search filtered
    on it is the unfiltered search. *)
Theorem search_unknown_domain query d k st :
  wf st -> d <> "" -> d ∉ domain_keys ->
  (search query (Some d) k st).1 =
  match fs !! (d +:+ ".csv") with
  | None => Ok []
  | Some Unreadable => Raise OSError
  | Some (Rows []) => Ok []
  | Some (Rows docs) =>
      match index_error (tokenize_doc <$> docs) with
      | Some e => Raise e
      | None =>
          Ok (slice_to k (sort_desc
                (hits d docs (get_scores (tokenize_doc <$> docs) (tokenize_query query)))))
      end
  end /\
  search query (Some "") k st = search query None k st.
Proof.
  intros Hwf Hd Hunknown. split; [|done].
  rewrite search_spec, domains_to_search_filtered by done.
  simpl. unfold category_hits. rewrite csv_name_unknown by done.
  destruct (fs !! (d +:+ ".csv")) as [[|[|doc docs]]|]; try done.
  - simpl. by rewrite slice_to_nil.
  - destruct (index_error _); [done|]. by rewrite app_nil_r.
  - simpl. by rewrite slice_to_nil.
Qed.

(** *** The composer *)

Lemma search_filtered_outcome query d k st :
  wf st -> d <> "" -> (search query (Some d) k st).1 = results_for query d k.
Proof.
  intros Hwf Hd. by rewrite search_spec, domains_to_search_filtered.
Qed.

Lemma bind_search {B} query d k (f : list SearchResult -> M B) st :
  wf st -> d <> "" ->
  exists st', wf st' /\
    bind (search query (Some d) k) f st =
    match results_for query d k with
    | Ok rs => f rs st'
    | Raise e => (Raise e, st')
    end.
Proof.
  intros Hwf Hd. exists (search query (Some d) k st).2.
  split; [by apply wf_search|].
  unfold bind. rewrite <- (search_filtered_outcome query d k st) by done.
  by destruct (search query (Some d) k st) as [[rs|e] st'].
Qed.

Lemma generator_spec query project_name st :
  wf st -> (design_system_generator query project_name st).1 = generated query project_name.
Proof.
  intros Hwf. unfold design_system_generator, generated, obind.
  repeat match goal with
  | Hst : wf ?st |- context [bind (search query (Some ?d) ?k) ?f ?st] =>
      let st' := fresh "st" in
      let Hst' := fresh "Hwf" in
      destruct (bind_search query d k f st Hst) as (st' & Hst' & ->); [done|];
      clear Hst; destruct (results_for query d k); [|done]
  end.
  done.
Qed.

Lemma checklist_from_length rs :
  (length (_generate_checklist_from rs) <= length rs)%nat.
Proof.
  induction rs as [|r rs IH]; simpl; [done|].
  destruct (rec_get "guideline_name" (metadata r)) as [[g|]|];
    destruct (rec_get "rule" (metadata r)) as [[u|]|]; try lia.
  match goal with |- context [if ?b then _ else _] => destruct b end; simpl; lia.
Qed.

Lemma entry_from_cons r rs e : entry_from rs e -> entry_from (r :: rs) e.
Proof. intros (r' & Hin & H). exists r'. split; [by right|done]. Qed.

Lemma checklist_from_entries rs :
  Forall (entry_from rs) (_generate_checklist_from rs).
Proof.
  induction rs as [|r rs IH]; simpl; [constructor|].
  assert (Forall (entry_from (r :: rs)) (_generate_checklist_from rs)) as IH'.
  { eapply Forall_impl; [exact IH|]. apply entry_from_cons. }
  destruct (rec_get "guideline_name" (metadata r)) as [[g|]|] eqn:Hg;
    destruct (rec_get "rule" (metadata r)) as [[u|]|] eqn:Hu; try done.
  match goal with |- context [if ?b then _ else _] => destruct b eqn:Ht end; [|done].
  constructor; [|done].
  apply andb_true_iff in Ht as [Htg Htu].
  exists r. simpl. repeat split; try done; [by left| |].
  - intros ->. done.
  - intros ->. done.
Qed.

Lemma results_for_length query d k rs :
  0 <= k -> results_for query d k = Ok rs -> Z.of_nat (length rs) <= k.
Proof.
  intros Hk. unfold results_for.
  destruct (pool _ _) as [p|]; [|done]. intros [= <-].
  rewrite slice_to_length_nonneg by done. lia.
Qed.

Lemma generated_checklist query project_name doc :
  generated query project_name = Ok doc ->
  exists ux_results, results_for query "ux" 5 = Ok ux_results /\
    ds_checklist doc = _generate_checklist ux_results.
Proof.
  unfold generated, obind.
  repeat match goal with
  | |- context [results_for query ?d ?k] =>
      let rs := fresh "rs" in destruct (results_for query d k) as [rs|]; [|done]
  end.
  unfold compose. destruct (_extract_anti_patterns _ _); [|done].
  intros [= <-]. by eexists.
Qed.

Lemma hits_metadata d docs : forall scores,
  Forall (fun r => metadata r ∈ docs) (hits d docs scores).
Proof.
  induction docs as [|doc docs IH]; intros [|s scores];
    try (rewrite ?hits_nil_scores; by constructor).
  rewrite hits_cons. apply Forall_app. split.
  - destruct (ltb zero s); repeat constructor.
  - eapply Forall_impl; [apply IH|]. intros r Hr. by right.
Qed.

Lemma results_for_metadata query d k rs :
  results_for query d k = Ok rs ->
  Forall (fun r => exists rows, fs !! csv_name d = Some (Rows rows) /\ metadata r ∈ rows) rs.
Proof.
  unfold results_for. simpl.
  destruct (category_hits (tokenize_query query) d) as [h|] eqn:Hh; [|done].
  intros [= <-]. rewrite app_nil_r.
  destruct (slice_to_prefix k (sort_desc h)) as [rest Hrest].
  assert (Forall (fun r => exists rows,
            fs !! csv_name d = Some (Rows rows) /\ metadata r ∈ rows) h) as Hall.
  { apply category_hits_inv in Hh as [->|(rows & Hfs & _ & _ & ->)]; [constructor|].
    eapply Forall_impl; [apply hits_metadata|]. intros r Hr. by exists rows. }
  rewrite <- sort_desc_perm, Hrest in Hall.
  by apply Forall_app in Hall as [Hall _].
Qed.

Lemma results_for_returns query d k :
  loads_and_builds d -> exists rs, results_for query d k = Ok rs.
Proof.
  intros [h Hh]%(category_hits_loadable (tokenize_query query)).
  unfold results_for. simpl. rewrite Hh. by eauto.
Qed.

Lemma gather_anti_patterns_ok rs :
  Forall (fun r => rec_get "anti_patterns" (metadata r) <> Some None) rs ->
  forall acc, exists l, gather_anti_patterns rs acc = Ok l.
Proof.
  induction 1 as [|r rs Hr _ IH]; intros acc; simpl; [by eexists|].
  destruct (rec_get "anti_patterns" (metadata r)) as [[phrases|]|]; by auto.
Qed.

Lemma slice_Forall {A} (P : A -> Prop) i j (l : list A) :
  Forall P l -> Forall P (slice i j l).
Proof. intros H. unfold slice. by apply Forall_take, Forall_drop. Qed.

Lemma generated_returns query project_name :
  loadable domain_keys -> anti_patterns_are_strings ->
  exists doc, generated query project_name = Ok doc.
Proof.
  intros Hr Hanti.
  assert (forall d k, d ∈ domain_keys -> exists rs, results_for query d k = Ok rs) as Hret.
  { intros d k Hd. apply results_for_returns.
    unfold loadable in Hr. rewrite Forall_forall in Hr. by apply Hr. }
  unfold generated.
  destruct (Hret "product" 3) as [product_results Hproduct]; [by repeat constructor|].
  destruct (Hret "style" 3) as [style_results ->]; [by repeat constructor|].
  destruct (Hret "color" 3) as [color_results ->]; [by repeat constructor|].
  destruct (Hret "typography" 3) as [typography_results ->]; [by repeat constructor|].
  destruct (Hret "landing" 3) as [landing_results ->]; [by repeat constructor|].
  destruct (Hret "chart" 5) as [chart_results ->]; [by repeat constructor|].
  destruct (Hret "ux" 5) as [ux_results ->]; [by repeat constructor|].
  rewrite Hproduct. cbn [obind].
  apply results_for_metadata in Hproduct.
  unfold compose, _extract_anti_patterns.
  edestruct (gather_anti_patterns_ok (slice 0 2 product_results)) as [l ->];
    [|by eexists].
  apply slice_Forall. eapply Forall_impl; [exact Hproduct|].
  intros r (rows & Hrows & Hin) Hnone.
  specialize (Hanti rows Hrows). rewrite Forall_forall in Hanti.
  by apply (Hanti _ Hin).
Qed.

(** C10: for every query and project name, the checklist of the document
    [design_system_generator] returns has at most 5 entries: the ux
    search behind it returns at most 5 results, so the scan of its first
    10 results covers all of them and no more, and every entry comes from
    a ux result that has both a guideline name and a rule. The generator
    does return a document when no category fails to load or to build
    and the product rows bind the anti-pattern field to strings. *)
Theorem checklist_at_most_five query project_name st :
  wf st ->
  (loadable domain_keys -> anti_patterns_are_strings ->
   exists doc, (design_system_generator query project_name st).1 = Ok doc) /\
  forall doc, (design_system_generator query project_name st).1 = Ok doc ->
    (length (ds_checklist doc) <= 5)%nat /\
    exists ux_results,
      (search query (Some "ux") 5 st).1 = Ok ux_results /\
      (length ux_results <= 5)%nat /\
      slice 0 10 ux_results = ux_results /\
      ds_checklist doc = _generate_checklist ux_results /\
      Forall (entry_from ux_results) (ds_checklist doc).
Proof.
  intros Hwf. rewrite generator_spec by done.
  split; [apply generated_returns|].
  intros doc (ux & Hux & Hdoc)%generated_checklist.
  assert (Z.of_nat (length ux) <= 5) as Hlen
    by (by eapply results_for_length; [|exact Hux]).
  assert (slice 0 10 ux = ux) as Hscan.
  { unfold slice. rewrite drop_0. apply take_ge. lia. }
  assert (ds_checklist doc = _generate_checklist_from ux) as Hfrom.
  { rewrite Hdoc. unfold _generate_checklist. by rewrite Hscan. }
  split.
  - rewrite Hfrom. pose proof (checklist_from_length ux). lia.
  - exists ux. rewrite search_filtered_outcome by done.
    repeat split; try done; [lia|].
    rewrite Hfrom. apply checklist_from_entries.
Qed.

(** *** Further properties of [search] *)

(** The row of category [d] at some position of its file, with the
    score the library gives it for the query, makes the result [r]. *)
Definition scored_row (query_tokens : list string) (d : string) (r : SearchResult) : Prop :=
  exists rows i,
    fs !! csv_name d = Some (Rows rows) /\
    rows !! i = Some (metadata r) /\
    get_scores (tokenize_doc <$> rows) query_tokens !! i = Some (score r) /\
    domain r = d /\ content r = json_dumps (metadata r).

(** X5: what a search returns does not depend on what the engine has
    cached: from any two engines whose caches agree with the data
    directory the outcome is the same, in particular before and after
    any other search. *)
Theorem search_outcome_ignores_cache query dom k st1 st2 :
  wf st1 -> wf st2 ->
  (search query dom k st1).1 = (search query dom k st2).1 /\
  forall query' dom' k',
    (search query dom k (search query' dom' k' st1).2).1 = (search query dom k st1).1.
Proof.
  intros Hwf1 Hwf2. split; [by rewrite !search_spec|].
  intros query' dom' k'.
  rewrite (search_spec query dom k st1 Hwf1).
  by rewrite (search_spec query dom k _ (wf_search query' dom' k' st1 Hwf1)).
Qed.

(** X6: a search that returns has called the loader once for each
    target category that was not cached, in iteration order, and for no
    other category. *)
Theorem search_loads_uncached_targets query dom k st rs :
  wf st -> (search query dom k st).1 = Ok rs ->
  loads (search query dom k st).2 =
  loads st ++ filter (uncached st) (domains_to_search dom).
Proof.
  intros Hwf Hrs. pose proof (search_returns_loadable _ _ _ _ _ Hwf Hrs) as Hl.
  rewrite search_spec by done. simpl.
  apply visit_all_loads; [done|apply domains_to_search_NoDup].
Qed.

(** X7: after a search that returns, a category is cached exactly when
    it was cached before, or it is a target whose file has at least one
    row; cached indices are never replaced. *)
Theorem search_caches_targets_with_rows query dom k st d rs :
  wf st -> (search query dom k st).1 = Ok rs ->
  indices (search query dom k st).2 !! d =
  match indices st !! d with
  | Some index => Some index
  | None =>
      if bool_decide (d ∈ domains_to_search dom) then
        match fs !! csv_name d with
        | Some (Rows (doc :: docs)) => Some (tokenize_doc <$> (doc :: docs))
        | _ => None
        end
      else None
  end.
Proof.
  intros Hwf Hrs. pose proof (search_returns_loadable _ _ _ _ _ Hwf Hrs) as Hl.
  rewrite search_spec by done. simpl.
  by apply visit_all_indices.
Qed.

Lemma hits_elem d docs scores r :
  r ∈ hits d docs scores <->
  exists i, docs !! i = Some (metadata r) /\ scores !! i = Some (score r) /\
            positive r /\ domain r = d /\ content r = json_dumps (metadata r).
Proof.
  unfold hits, positive. rewrite list_elem_of_omap. split.
  - intros ([doc s] & Hin & Hr). simpl in Hr.
    destruct (ltb zero s) eqn:Hs; [|done]. injection Hr as <-. simpl.
    apply list_elem_of_lookup in Hin as [i Hi].
    apply lookup_zip_with_Some in Hi as (doc' & s' & [= -> ->] & Hdoc & Hscore).
    by exists i.
  - intros (i & Hdoc & Hscore & Hpos & Hdom & Hcontent).
    exists (metadata r, score r). simpl. rewrite Hpos. split.
    + apply list_elem_of_lookup. exists i. apply lookup_zip_with_Some. by eauto.
    + destruct r as [d' c m s]. simpl in *. by subst.
Qed.

Lemma category_hits_elem q d h r :
  category_hits q d = Ok h -> (r ∈ h <-> scored_row q d r /\ positive r).
Proof.
  unfold category_hits, scored_row.
  destruct (fs !! csv_name d) as [[|[|doc docs]]|] eqn:Hfs; try done.
  - intros [= <-]. split; [by intros ?%elem_of_nil|].
    by intros [(rows & i & [= <-] & ? & _) _].
  - destruct (index_error _); [done|]. intros [= <-].
    rewrite hits_elem. split.
    + intros (i & ? & ? & ? & ? & ?). split; [|done]. by exists (doc :: docs), i.
    + intros [(rows' & i & [= <-] & ? & ? & ? & ?) ?]. by exists i.
  - intros [= <-]. split; [by intros ?%elem_of_nil|].
    by intros [(rows & i & ? & _) _].
Qed.

Lemma pool_elem q ds : forall p r,
  pool q ds = Ok p ->
  (r ∈ p <-> domain r ∈ ds /\ scored_row q (domain r) r /\ positive r).
Proof.
  induction ds as [|d ds IH]; intros p r Hp.
  - injection Hp as <-. split; [by intros ?%elem_of_nil|].
    by intros [?%elem_of_nil _].
  - apply pool_cons_inv in Hp as (h & p' & Hh & Hp' & ->).
    rewrite elem_of_app, (category_hits_elem _ _ _ r Hh), (IH p' r Hp'), elem_of_cons.
    split.
    + intros [[Hrow Hpos]|(Hin & Hrow & Hpos)].
      * assert (domain r = d) as Hd by (by destruct Hrow as (? & ? & ? & ? & ? & ? & ?)).
        rewrite Hd. by eauto.
      * by eauto.
    + intros ([Hd|Hin] & Hrow & Hpos); [left|right]; [|done].
      by rewrite <- Hd.
Qed.

(** X8: search returns only what the data directory holds: every
    result carries the name of a target category, a row of that
    category's file with the score the library gave that row for the
    query, a strictly positive one, and the JSON text of that row. *)
Theorem search_results_are_scored_rows query dom k st rs r :
  wf st -> (search query dom k st).1 = Ok rs -> r ∈ rs ->
  domain r ∈ domains_to_search dom /\
  scored_row (tokenize_query query) (domain r) r /\
  positive r.
Proof.
  intros Hwf (p & Hp & ->)%search_inv Hr; [|done].
  apply (pool_elem _ _ _ r Hp).
  destruct (slice_to_prefix k (sort_desc p)) as [rest Hrest].
  rewrite <- (sort_desc_perm p), Hrest. apply elem_of_app. by left.
Qed.

(** X9: when [max_results] is at least the number of rows with a
    positive score, the search returns all of them: every row of a
    target category that the library scores above zero for the query is
    among the results. *)
Theorem search_returns_every_match query dom k st rs r :
  wf st -> 0 <= k ->
  Z.of_nat (positive_matches (tokenize_query query) (domains_to_search dom)) <= k ->
  (search query dom k st).1 = Ok rs ->
  domain r ∈ domains_to_search dom ->
  scored_row (tokenize_query query) (domain r) r ->
  positive r ->
  r ∈ rs.
Proof.
  intros Hwf Hk Hcap (p & Hp & ->)%search_inv Hd Hrow Hpos; [|done].
  rewrite <- (pool_length _ _ _ Hp) in Hcap.
  unfold slice_to. destruct (Z.leb_spec 0 k); [|lia].
  rewrite take_ge by (rewrite sort_desc_length; lia).
  rewrite sort_desc_perm. by apply (pool_elem _ _ _ r Hp).
Qed.

(** X10: raising a non-negative [max_results] only appends results: the
    results for a smaller bound are a prefix of those for a larger
    one. *)
Theorem search_cap_monotone query dom k k' st rs rs' :
  wf st -> 0 <= k <= k' ->
  (search query dom k st).1 = Ok rs ->
  (search query dom k' st).1 = Ok rs' ->
  rs `prefix_of` rs'.
Proof.
  intros Hwf Hk (p & Hp & ->)%search_inv (p' & Hp' & ->)%search_inv; try done.
  rewrite Hp in Hp'. injection Hp' as <-.
  unfold slice_to. destruct (Z.leb_spec 0 k), (Z.leb_spec 0 k'); try lia.
  replace (Z.to_nat k) with (Nat.min (Z.to_nat k) (Z.to_nat k')) by lia.
  rewrite <- take_take. apply prefix_take.
Qed.

(** X11: truncation keeps the best: the results returned and the
    positive-score results left out make up the pool, no result left
    out has a higher score than a result returned, and the first result
    has a highest score of the whole pool. *)
Theorem search_keeps_best query dom k st rs :
  wf st -> (search query dom k st).1 = Ok rs ->
  exists p dropped,
    pool (tokenize_query query) (domains_to_search dom) = Ok p /\
    rs ++ dropped ≡ₚ p /\
    (forall r r', r ∈ rs -> r' ∈ dropped -> ge_score r r') /\
    (forall r rest r', rs = r :: rest -> r' ∈ p -> ge_score r r').
Proof.
  intros Hwf (p & Hp & ->)%search_inv; [|done].
  destruct (slice_to_prefix k (sort_desc p)) as [dropped Hdropped].
  exists p, dropped. split; [done|].
  pose proof (sort_desc_sorted p) as Hsorted. rewrite Hdropped in Hsorted.
  split; [by rewrite <- Hdropped, sort_desc_perm|]. split.
  - intros r r' Hr Hr'. by eapply (StronglySorted_app_1_elem_of _ _ _ _ _ Hsorted).
  - intros r rest r' Hrs Hr'. rewrite Hrs in Hsorted, Hdropped.
    rewrite <- (sort_desc_perm p), Hdropped in Hr'.
    simpl in Hsorted. apply StronglySorted_inv in Hsorted as [_ Hall].
    simpl in Hr'. apply elem_of_cons in Hr' as [->|Hr'].
    + unfold ge_score. destruct (ltb (score r) (score r)) eqn:Hlt; [|done].
      by rewrite (ltb_asym _ _ Hlt) in Hlt.
    + rewrite Forall_forall in Hall. by apply Hall.
Qed.

(** *** The ranking of one category inside the ranking of all *)










(** *** Further properties of the composer *)


Lemma generated_inv query project_name doc :
  generated query project_name = Ok doc ->
  exists p s c t l ch ux,
    results_for query "product" 3 = Ok p /\
    results_for query "style" 3 = Ok s /\
    results_for query "color" 3 = Ok c /\
    results_for query "typography" 3 = Ok t /\
    results_for query "landing" 3 = Ok l /\
    results_for query "chart" 5 = Ok ch /\
    results_for query "ux" 5 = Ok ux /\
    compose query project_name p s c t l ch ux = Ok doc.
Proof.
  unfold generated, obind.
  repeat match goal with
  | |- context [results_for query ?d ?k] =>
      let rs := fresh "rs" in destruct (results_for query d k) as [rs|]; [|done]
  end.
  intros Hdoc. do 7 eexists. by repeat split.
Qed.





Lemma gather_anti_patterns_raise rs : forall acc e,
  gather_anti_patterns rs acc = Raise e <->
  e = AttributeError /\
  exists r, r ∈ rs /\ rec_get "anti_patterns" (metadata r) = Some None.
Proof.
  induction rs as [|r rs IH]; intros acc e; simpl.
  - split; [done|]. by intros [_ (r & ?%elem_of_nil & _)].
  - destruct (rec_get "anti_patterns" (metadata r)) as [[phrases|]|] eqn:Hr.
    + rewrite IH. split; intros [-> (r' & Hin & Hnone)]; (split; [done|]).
      * exists r'. split; [by right|done].
      * exists r'. apply elem_of_cons in Hin as [->|Hin]; [congruence|done].
    + split.
      * intros [= <-]. split; [done|]. exists r. split; [by left|done].
      * by intros [-> _].
    + rewrite IH. split; intros [-> (r' & Hin & Hnone)]; (split; [done|]).
      * exists r'. split; [by right|done].
      * exists r'. apply elem_of_cons in Hin as [->|Hin]; [congruence|done].
Qed.

Lemma generated_loadable query project_name :
  loadable domain_keys ->
  exists p s c t l ch ux,
    results_for query "product" 3 = Ok p /\
    generated query project_name = compose query project_name p s c t l ch ux.
Proof.
  intros Hr.
  assert (forall d k, d ∈ domain_keys -> exists rs, results_for query d k = Ok rs) as Hret.
  { intros d k Hd. apply results_for_returns.
    unfold loadable in Hr. rewrite Forall_forall in Hr. by apply Hr. }
  unfold generated.
  destruct (Hret "product" 3) as [p Hp]; [by repeat constructor|].
  destruct (Hret "style" 3) as [s ->]; [by repeat constructor|].
  destruct (Hret "color" 3) as [c ->]; [by repeat constructor|].
  destruct (Hret "typography" 3) as [t ->]; [by repeat constructor|].
  destruct (Hret "landing" 3) as [l ->]; [by repeat constructor|].
  destruct (Hret "chart" 5) as [ch ->]; [by repeat constructor|].
  destruct (Hret "ux" 5) as [ux ->]; [by repeat constructor|].
  exists p, s, c, t, l, ch, ux. split; [done|]. by rewrite Hp.
Qed.

(** X14: when no category fails to load or to build its index, the
    generator fails in one way only: it raises [AttributeError] exactly
    when one of the first two product results is a row whose
    anti-pattern field is bound to [None] (a row shorter than the
    header); otherwise it returns a document. *)
Theorem generator_fails_on_none_anti_patterns query project_name st :
  wf st -> loadable domain_keys ->
  ((design_system_generator query project_name st).1 = Raise AttributeError <->
   exists p r, (search query (Some "product") 3 st).1 = Ok p /\
               r ∈ take 2 p /\
               rec_get "anti_patterns" (metadata r) = Some None) /\
  (forall e, (design_system_generator query project_name st).1 = Raise e ->
             e = AttributeError).
Proof.
  intros Hwf Hr. rewrite generator_spec by done.
  destruct (generated_loadable query project_name Hr)
    as (p & s & c & t & l & ch & ux & Hp & ->).
  rewrite search_filtered_outcome, Hp by done.
  unfold compose, _extract_anti_patterns.
  change (slice 0 2 p) with (take 2 p).
  destruct (gather_anti_patterns (take 2 p) []) as [phrases|e] eqn:Hgather.
  - split; [|done]. split; [done|].
    intros (p' & r & [= <-] & Hin & Hnone).
    assert (gather_anti_patterns (take 2 p) [] = Raise AttributeError) as Hraise
      by (apply gather_anti_patterns_raise; by eauto).
    congruence.
  - apply gather_anti_patterns_raise in Hgather as [-> (r & Hin & Hnone)].
    split; [|by intros e [= <-]]. split; [|done]. intros _. by exists p, r.
Qed.

Lemma visit_all_loadable q ds : forall st,
  loadable ds -> visit_all q ds st = foldl (fun s d => visit d s) st ds.
Proof.
  induction ds as [|d ds IH]; intros st Hr; simpl; [done|].
  apply Forall_cons in Hr as [Hd Hr].
  apply (category_hits_loadable q) in Hd as [h ->]. by apply IH.
Qed.

Lemma search_filtered_loadable query d k st :
  wf st -> d <> "" -> loads_and_builds d ->
  exists rs, search query (Some d) k st = (Ok rs, visit d st).
Proof.
  intros Hwf Hd Hfs. rewrite search_spec, domains_to_search_filtered by done.
  simpl. apply (category_hits_loadable (tokenize_query query)) in Hfs as [h ->].
  by eexists.
Qed.

Lemma bind_search_loadable {B} query d k (f : list SearchResult -> M B) st :
  wf st -> d <> "" -> loads_and_builds d ->
  exists rs, bind (search query (Some d) k) f st = f rs (visit d st).
Proof.
  intros Hwf Hd Hfs.
  destruct (search_filtered_loadable query d k st Hwf Hd Hfs) as [rs Hrs].
  exists rs. unfold bind. by rewrite Hrs.
Qed.

(** X15: when no category fails to load or to build its index, a run
    of the generator leaves the engine, caches and loader history,
    exactly as one unfiltered search does, whatever the result caps: in
    particular it calls the loader once for each of the seven
    categories that is not cached, in the fixed order. *)
Theorem generator_state_is_search_state query project_name k st :
  wf st -> loadable domain_keys ->
  (design_system_generator query project_name st).2 = (search query None k st).2 /\
  loads (design_system_generator query project_name st).2 =
  loads st ++ filter (uncached st) domain_keys.
Proof.
  intros Hwf Hr.
  assert ((design_system_generator query project_name st).2 = (search query None k st).2)
    as Hstate.
  { rewrite (search_spec query None k st Hwf). cbn [snd].
    change (domains_to_search None) with domain_keys.
    rewrite visit_all_loadable by done.
    assert (forall d, d ∈ domain_keys -> loads_and_builds d) as Hread.
    { unfold loadable in Hr. by rewrite Forall_forall in Hr. }
    unfold design_system_generator.
    destruct (bind_search_loadable query "product" 3
      (fun product_results =>
         let* style_results := search query (Some "style") 3 in
         let* color_results := search query (Some "color") 3 in
         let* typography_results := search query (Some "typography") 3 in
         let* landing_results := search query (Some "landing") 3 in
         let* chart_results := search query (Some "chart") 5 in
         let* ux_results := search query (Some "ux") 5 in
         lift (compose query project_name product_results style_results color_results
                 typography_results landing_results chart_results ux_results))
      st Hwf) as [p ->]; [done|apply Hread; by repeat constructor|].
    pose proof (wf_visit "product" st Hwf) as Hwf1.
    match goal with |- context [bind (search query (Some "style") 3) ?f ?s] =>
      destruct (bind_search_loadable query "style" 3 f s Hwf1) as [sr ->];
        [done|apply Hread; by repeat constructor|] end.
    pose proof (wf_visit "style" _ Hwf1) as Hwf2.
    match goal with |- context [bind (search query (Some "color") 3) ?f ?s] =>
      destruct (bind_search_loadable query "color" 3 f s Hwf2) as [cr ->];
        [done|apply Hread; by repeat constructor|] end.
    pose proof (wf_visit "color" _ Hwf2) as Hwf3.
    match goal with |- context [bind (search query (Some "typography") 3) ?f ?s] =>
      destruct (bind_search_loadable query "typography" 3 f s Hwf3) as [tr ->];
        [done|apply Hread; by repeat constructor|] end.
    pose proof (wf_visit "typography" _ Hwf3) as Hwf4.
    match goal with |- context [bind (search query (Some "landing") 3) ?f ?s] =>
      destruct (bind_search_loadable query "landing" 3 f s Hwf4) as [lr ->];
        [done|apply Hread; by repeat constructor|] end.
    pose proof (wf_visit "landing" _ Hwf4) as Hwf5.
    match goal with |- context [bind (search query (Some "chart") 5) ?f ?s] =>
      destruct (bind_search_loadable query "chart" 5 f s Hwf5) as [chr ->];
        [done|apply Hread; by repeat constructor|] end.
    pose proof (wf_visit "chart" _ Hwf5) as Hwf6.
    match goal with |- context [bind (search query (Some "ux") 5) ?f ?s] =>
      destruct (bind_search_loadable query "ux" 5 f s Hwf6) as [uxr ->];
        [done|apply Hread; by repeat constructor|] end.
    unfold lift. cbn [snd]. unfold domain_keys, domains.
    cbn [fmap list_fmap fst foldl]. reflexivity. }
  split; [exact Hstate|].
  rewrite Hstate, search_spec by done. cbn [snd].
  apply visit_all_loads; [done|apply (domains_to_search_NoDup None)].
Qed.

End Engine.

(** ** Two runs of the composer *)

Section Runs.

Context {num : Type}.
Variable zero : num.
Variable ltb : num -> num -> bool.
Variable get_scores : list (list string) -> list string -> list num.
Variable index_error : list (list string) -> option exn.
Variable fs : gmap string file.

Hypothesis get_scores_length :
  forall corpus q, length (get_scores corpus q) = length corpus.

(** The set iteration orders of the two runs. *)
Variables order1 order2 : list string -> list string.
Hypothesis order1_ok : set_order order1.
Hypothesis order2_ok : set_order order2.

(** Two outcomes of the generator that differ at most in the order, and
    beyond five phrases in the choice, of the anti-patterns; [product]
    is the outcome of the product search of the run.  The phrases are
    those of the first two product results, as lines 145-148 gather
    them, and each anti-pattern list is the first five of them in the
    set order of its run. *)
Definition same_up_to_set_order (product : outcome (list (@SearchResult num)))
    (o1 o2 : outcome design_system) : Prop :=
  match o1, o2 with
  | Ok doc1, Ok doc2 =>
      ds_project_name doc1 = ds_project_name doc2 /\
      ds_query doc1 = ds_query doc2 /\
      ds_recommendations doc1 = ds_recommendations doc2 /\
      ds_alternatives doc1 = ds_alternatives doc2 /\
      ds_checklist doc1 = ds_checklist doc2 /\
      exists product_results phrases,
        product = Ok product_results /\
        gather_anti_patterns (slice 0 2 product_results) [] = Ok phrases /\
        ds_anti_patterns doc1 = slice 0 5 (order1 phrases) /\
        ds_anti_patterns doc2 = slice 0 5 (order2 phrases) /\
        NoDup (ds_anti_patterns doc1) /\ NoDup (ds_anti_patterns doc2) /\
        (length (ds_anti_patterns doc1) <= 5)%nat /\
        (length (ds_anti_patterns doc2) <= 5)%nat /\
        ds_anti_patterns doc1 ⊆ phrases /\ ds_anti_patterns doc2 ⊆ phrases /\
        ((length (order1 phrases) <= 5)%nat ->
         ds_anti_patterns doc1 ≡ₚ ds_anti_patterns doc2 /\
         forall x, x ∈ phrases <-> x ∈ ds_anti_patterns doc1)
  | Raise e1, Raise e2 => e1 = e2
  | _, _ => False
  end.

Lemma set_order_perm phrases : order1 phrases ≡ₚ order2 phrases.
Proof.
  destruct (order1_ok phrases) as [Hnd1 Hin1], (order2_ok phrases) as [Hnd2 Hin2].
  apply NoDup_Permutation; [done..|].
  intros x. by rewrite Hin1, Hin2.
Qed.

Lemma slice_NoDup {A} i j (l : list A) : NoDup l -> NoDup (slice i j l).
Proof.
  intros H. unfold slice.
  eapply sublist_NoDup; [exact H|].
  etrans; [apply sublist_take|apply sublist_drop].
Qed.

Lemma slice_subseteq {A} i j (l : list A) : slice i j l ⊆ l.
Proof.
  unfold slice. etrans; [apply subseteq_take|apply subseteq_drop].
Qed.

Lemma slice_all {A} j (l : list A) : (length l <= j)%nat -> slice 0 j l = l.
Proof. intros H. unfold slice. rewrite drop_0. apply take_ge. lia. Qed.

Lemma compose_same_up_to_set_order query project_name
    (p s c t l ch ux : list (@SearchResult num)) :
  same_up_to_set_order (Ok p)
    (compose order1 query project_name p s c t l ch ux)
    (compose order2 query project_name p s c t l ch ux).
Proof.
  unfold compose, _extract_anti_patterns.
  destruct (gather_anti_patterns (slice 0 2 p) []) as [phrases|e] eqn:Hphrases;
    [|done].
  simpl.
  destruct (order1_ok phrases) as [Hnd1 Hin1], (order2_ok phrases) as [Hnd2 Hin2].
  do 5 (split; [done|]). exists p, phrases.
  do 4 (split; [done|]).
  split; [by apply slice_NoDup|]. split; [by apply slice_NoDup|].
  split; [apply slice_length|]. split; [apply slice_length|].
  split; [intros x Hx%slice_subseteq; by apply Hin1|].
  split; [intros x Hx%slice_subseteq; by apply Hin2|].
  intros Hlen. rewrite !slice_all; [|by rewrite <- set_order_perm|done].
  split; [apply set_order_perm|]. intros x. by rewrite Hin1.
Qed.

(** C2, amended: over a fixed corpus, two runs of
    [design_system_generator] on the same query and project name, from
    any engines whose caches agree with the corpus, raise the same
    exception or return documents that agree on every field except
    possibly [anti_patterns].  Each of the two anti-pattern lists is the
    first five, in the set order of its run, of the phrases gathered
    from the first two results of the product search: it has no
    duplicate and at most 5 entries, all among those phrases; when
    there are at most 5 distinct phrases the two lists are permutations
    of each other and hold every phrase.  The two documents are
    identical when both runs iterate the set in the same order. *)
Theorem generator_deterministic_up_to_set_order query project_name st1 st2 :
  wf index_error fs st1 -> wf index_error fs st2 ->
  same_up_to_set_order
    (search zero ltb get_scores index_error fs query (Some "product") 3 st1).1
    (design_system_generator zero ltb get_scores index_error fs order1
       query project_name st1).1
    (design_system_generator zero ltb get_scores index_error fs order2
       query project_name st2).1 /\
  ((forall phrases, order1 phrases = order2 phrases) ->
   (design_system_generator zero ltb get_scores index_error fs order1
      query project_name st1).1 =
   (design_system_generator zero ltb get_scores index_error fs order2
      query project_name st2).1).
Proof.
  intros Hwf1 Hwf2.
  rewrite !generator_spec, search_filtered_outcome by done.
  unfold generated, obind.
  repeat match goal with
  | |- context [results_for zero ltb get_scores index_error fs query ?d ?k] =>
      destruct (results_for zero ltb get_scores index_error fs query d k); [|done]
  end.
  split; [apply compose_same_up_to_set_order|].
  intros Hsame. unfold compose, _extract_anti_patterns.
  destruct (gather_anti_patterns _ _); [|done]. by rewrite Hsame.
Qed.

End Runs.

(** ** The scoring formula: signs of the contributions *)

Section Scoring.

Local Open Scope R_scope.

Implicit Types (corpus : list (list string)) (q d : list string) (t : string).

Lemma Rdiv_nonneg x y : 0 <= x -> 0 <= y -> 0 <= x / y.
Proof.
  intros Hx Hy. destruct (Req_dec y 0) as [-> | Hne].
  - rewrite Rdiv_0_r. lra.
  - apply Rle_mult_inv_pos; lra.
Qed.

Lemma df_le corpus t : (BM25.df corpus t <= length corpus)%nat.
Proof. apply length_filter. Qed.

Lemma df_pos corpus d t : d ∈ corpus -> t ∈ d -> (0 < BM25.df corpus t)%nat.
Proof.
  intros Hd Ht. unfold BM25.df.
  assert (d ∈ filter (fun d => t ∈ d) corpus) as Hin by (by apply list_elem_of_filter).
  destruct (filter _ corpus); [by apply elem_of_nil in Hin | simpl; lia].
Qed.

Lemma tf_pos d t : t ∈ d -> (0 < BM25.tf t d)%nat.
Proof.
  intros Ht. unfold BM25.tf.
  assert (t ∈ filter (fun x => x = t) d) as Hin by (by apply list_elem_of_filter).
  destruct (filter _ d); [by apply elem_of_nil in Hin | simpl; lia].
Qed.

Lemma tf_zero d t : t ∉ d -> BM25.tf t d = 0%nat.
Proof.
  intros Ht. unfold BM25.tf.
  destruct (filter (fun x => x = t) d) as [|x l] eqn:Hf; [done|].
  assert (x ∈ filter (fun x => x = t) d) as Hin by (rewrite Hf; by left).
  apply list_elem_of_filter in Hin as [-> Hin]. done.
Qed.

Lemma idf_pos corpus t : 0 < BM25.idf corpus t.
Proof.
  unfold BM25.idf. rewrite <- ln_1.
  pose proof (le_INR _ _ (df_le corpus t)) as Hle.
  pose proof (pos_INR (BM25.df corpus t)) as Hdf.
  apply ln_increasing; [lra|].
  assert (0 < (INR (length corpus) - INR (BM25.df corpus t) + 0.5)
              / (INR (BM25.df corpus t) + 0.5)); [|lra].
  apply Rdiv_lt_0_compat; lra.
Qed.

Lemma avgdl_nonneg corpus : 0 <= BM25.avgdl corpus.
Proof. unfold BM25.avgdl. apply Rdiv_nonneg; apply pos_INR. Qed.

Lemma normalizer_pos corpus d :
  0 < BM25.k1 * (1 - BM25.b + BM25.b * INR (length d) / BM25.avgdl corpus).
Proof.
  unfold BM25.k1, BM25.b.
  assert (0 <= 0.75 * INR (length d) / BM25.avgdl corpus).
  { apply Rdiv_nonneg; [|apply avgdl_nonneg].
    pose proof (pos_INR (length d)). lra. }
  lra.
Qed.

Lemma contribution_nonneg corpus d t : 0 <= BM25.contribution corpus d t.
Proof.
  unfold BM25.contribution. case_bool_decide; [lra|].
  pose proof (idf_pos corpus t). pose proof (normalizer_pos corpus d).
  pose proof (pos_INR (BM25.tf t d)).
  apply Rle_mult_inv_pos; [|lra].
  apply Rmult_le_pos; [lra|]. apply Rmult_le_pos; [done|]. unfold BM25.k1. lra.
Qed.

Lemma contribution_pos corpus d t :
  d ∈ corpus -> t ∈ d -> 0 < BM25.contribution corpus d t.
Proof.
  intros Hd Ht. unfold BM25.contribution.
  pose proof (df_pos corpus d t Hd Ht).
  case_bool_decide; [lia|].
  pose proof (idf_pos corpus t). pose proof (normalizer_pos corpus d).
  pose proof (lt_0_INR _ (tf_pos d t Ht)).
  apply Rdiv_lt_0_compat; [|lra].
  apply Rmult_lt_0_compat; [done|]. apply Rmult_lt_0_compat; [done|].
  unfold BM25.k1. lra.
Qed.

Lemma contribution_zero corpus d t : t ∉ d -> BM25.contribution corpus d t = 0.
Proof.
  intros Ht. unfold BM25.contribution. case_bool_decide; [done|].
  rewrite (tf_zero d t Ht). simpl INR. unfold Rdiv. ring.
Qed.

Lemma score_nonneg corpus q d : 0 <= BM25.score corpus q d.
Proof.
  induction q as [|t q IH]; simpl; [lra|].
  pose proof (contribution_nonneg corpus d t). lra.
Qed.

Lemma score_zero corpus q d :
  (forall t, t ∈ q -> t ∉ d) -> BM25.score corpus q d = 0.
Proof.
  induction q as [|t q IH]; simpl; intros Hq; [done|].
  rewrite contribution_zero, IH; [lra| |].
  - intros t' Ht'. apply Hq. by right.
  - apply Hq. by left.
Qed.

Lemma score_pos corpus q d t :
  d ∈ corpus -> t ∈ q -> t ∈ d -> 0 < BM25.score corpus q d.
Proof.
  intros Hd Hq Ht. induction Hq as [t q|t t' q _ IH]; simpl.
  - pose proof (contribution_pos corpus d t Hd Ht).
    pose proof (score_nonneg corpus q d).
    change (foldr _ 0 q) with (BM25.score corpus q d). lra.
  - pose proof (contribution_nonneg corpus d t'). specialize (IH Ht).
    change (foldr _ 0 q) with (BM25.score corpus q d). lra.
Qed.

Lemma bm25_scores_length corpus q : length (BM25.get_scores corpus q) = length corpus.
Proof. apply length_fmap. Qed.

Lemma bm25_ltb_asym a b : BM25.ltb a b = true -> BM25.ltb b a = false.
Proof. unfold BM25.ltb. repeat destruct (Rlt_dec _ _); try done. lra. Qed.

Lemma bm25_ltb_negtrans a b c :
  BM25.ltb a b = false -> BM25.ltb b c = false -> BM25.ltb a c = false.
Proof. unfold BM25.ltb. repeat destruct (Rlt_dec _ _); try done. lra. Qed.

Lemma bm25_ltb_true a b : a < b -> BM25.ltb a b = true.
Proof. intros H. unfold BM25.ltb. by destruct (Rlt_dec a b). Qed.

Lemma bm25_ltb_false a b : b <= a -> BM25.ltb a b = false.
Proof. intros H. unfold BM25.ltb. destruct (Rlt_dec a b); [lra|done]. Qed.

(** The contribution of a token depends on the collection only through
    its size, its total length and the document frequency of the token,
    and on the document only through its length and the frequency of
    the token in it. *)
Lemma contribution_same_shape corpus corpus' d d' t :
  length corpus = length corpus' ->
  sum_list (length <$> corpus) = sum_list (length <$> corpus') ->
  BM25.df corpus t = BM25.df corpus' t ->
  length d = length d' ->
  BM25.tf t d = BM25.tf t d' ->
  BM25.contribution corpus d t = BM25.contribution corpus' d' t.
Proof.
  intros Hn Hsum Hdf Hlen Htf.
  unfold BM25.contribution, BM25.idf, BM25.avgdl.
  by rewrite Hn, Hsum, Hdf, Hlen, Htf.
Qed.

Lemma score_two corpus d t1 t2 :
  BM25.score corpus [t1; t2] d =
  BM25.contribution corpus d t1 + BM25.contribution corpus d t2.
Proof. unfold BM25.score. simpl. lra. Qed.

(** C1: for every tokenized corpus, in particular every built category
    index, the score of a document is the sum over the query tokens of
    their contributions; a token of the vocabulary contributes
    IDF(t) * TF*(k1+1) / (TF + k1*(1 - b + b*|d|/avgdl)) with k1 = 1.5,
    b = 0.75 and IDF(t) = log((N - df + 0.5)/(df + 0.5) + 1), a token
    outside the vocabulary contributes nothing, and no contribution is
    negative. *)
Theorem bm25_contributions (corpus : list (list string)) (q d : list string) :
  BM25.get_scores corpus q = BM25.score corpus q <$> corpus /\
  BM25.score corpus q d = foldr Rplus 0 (BM25.contribution corpus d <$> q) /\
  forall t,
    (BM25.df corpus t <> 0%nat ->
     BM25.contribution corpus d t =
     ln ((INR (length corpus) - INR (BM25.df corpus t) + 0.5)
         / (INR (BM25.df corpus t) + 0.5) + 1)
     * (INR (BM25.tf t d) * (1.5 + 1))
     / (INR (BM25.tf t d)
        + 1.5 * (1 - 0.75 + 0.75 * INR (length d) / BM25.avgdl corpus))) /\
    (BM25.df corpus t = 0%nat -> BM25.contribution corpus d t = 0) /\
    0 < ln ((INR (length corpus) - INR (BM25.df corpus t) + 0.5)
            / (INR (BM25.df corpus t) + 0.5) + 1) /\
    0 <= BM25.contribution corpus d t.
Proof.
  split; [done|]. split.
  - unfold BM25.score. induction q as [|t q IH]; simpl; [done|]. by f_equal.
  - intros t. repeat split.
    + intros Hdf. unfold BM25.contribution. by case_bool_decide.
    + intros Hdf. unfold BM25.contribution. by case_bool_decide.
    + apply idf_pos.
    + apply contribution_nonneg.
Qed.

(** C7: in a category whose rows are [docs], and for a query with at
    least one token, a row whose tokens are exactly the query's tokens
    scores strictly higher than a row of the category that contains none
    of the query's tokens. *)
Theorem exact_match_outranks_disjoint (docs : list record) (query : string)
    (exact other : record) :
  tokenize_query query <> [] ->
  exact ∈ docs ->
  tokenize_doc exact = tokenize_query query ->
  (forall t, t ∈ tokenize_query query -> t ∉ tokenize_doc other) ->
  BM25.score (tokenize_doc <$> docs) (tokenize_query query) (tokenize_doc other)
  < BM25.score (tokenize_doc <$> docs) (tokenize_query query) (tokenize_doc exact).
Proof.
  intros Hq Hin Hexact Hother.
  rewrite (score_zero _ _ _ Hother).
  destruct (tokenize_query query) as [|t q] eqn:Htokens; [done|].
  apply (score_pos _ _ _ t).
  - by apply list_elem_of_fmap_2.
  - by left.
  - rewrite Hexact. by left.
Qed.

End Scoring.

(** ** The engine over the scoring formula *)

(** The query and the document share a token. *)
Definition shares_token (q d : list string) : bool :=
  existsb (fun t => bool_decide (t ∈ d)) q.

Lemma bm25_positive corpus (q d : list string) :
  d ∈ corpus ->
  BM25.ltb 0%R (BM25.score corpus q d) = shares_token q d.
Proof.
  intros Hd. destruct (shares_token q d) eqn:Hs.
  - apply existsb_exists in Hs as (t & Hq%list_elem_of_In & Ht%bool_decide_eq_true).
    apply bm25_ltb_true. by eapply score_pos.
  - apply bm25_ltb_false. rewrite score_zero; [lra|].
    intros t Hq Ht.
    assert (shares_token q d = true) as Hs'; [|congruence].
    apply existsb_exists. exists t. split; [by apply list_elem_of_In|].
    by apply bool_decide_eq_true.
Qed.

(** The result made from a row of category [dom] for a query. *)
Definition bm25_result (dom : string) (docs : list record) (q : list string)
    (doc : record) : SearchResult :=
  {| domain := dom; content := json_dumps doc; metadata := doc;
     score := BM25.score (tokenize_doc <$> docs) q (tokenize_doc doc) |}.

(** Under the formula, the hits of a category are its rows that share a
    token with the query. *)
Lemma hits_bm25_suffix dom docs q : forall rows,
  rows ⊆ docs ->
  hits 0%R BM25.ltb dom rows
    (BM25.score (tokenize_doc <$> docs) q <$> (tokenize_doc <$> rows)) =
  bm25_result dom docs q <$>
    filter (fun doc => shares_token q (tokenize_doc doc) = true) rows.
Proof.
  induction rows as [|doc rows IH]; intros Hsub; [done|].
  rewrite !fmap_cons, hits_cons, filter_cons, IH by set_solver.
  rewrite bm25_positive by (apply list_elem_of_fmap_2; set_solver).
  destruct (decide (shares_token q (tokenize_doc doc) = true)) as [->|Hn]; [done|].
  by apply not_true_is_false in Hn as ->.
Qed.

Lemma hits_bm25 dom docs q :
  hits 0%R BM25.ltb dom docs (BM25.get_scores (tokenize_doc <$> docs) q) =
  bm25_result dom docs q <$>
    filter (fun doc => shares_token q (tokenize_doc doc) = true) docs.
Proof. by apply hits_bm25_suffix. Qed.

Lemma category_hits_missing {num} (zero : num) ltb get_scores index_error
    (fs : gmap string file) q d :
  fs !! csv_name d = None ->
  category_hits zero ltb get_scores index_error fs q d = Ok [].
Proof. intros H. unfold category_hits. by rewrite H. Qed.

Lemma category_hits_bm25 (fs : gmap string file) q d docs :
  fs !! csv_name d = Some (Rows docs) ->
  BM25.index_error (tokenize_doc <$> docs) = None ->
  category_hits 0%R BM25.ltb BM25.get_scores BM25.index_error fs q d =
  Ok (bm25_result d docs q <$>
        filter (fun doc => shares_token q (tokenize_doc doc) = true) docs).
Proof.
  intros H Hbuild. unfold category_hits. rewrite H.
  destruct docs as [|doc docs]; [done|]. by rewrite Hbuild, hits_bm25.
Qed.

Abbreviation bm25_search :=
  (search 0%R BM25.ltb BM25.get_scores BM25.index_error).
Abbreviation bm25_generator :=
  (design_system_generator 0%R BM25.ltb BM25.get_scores BM25.index_error).
Abbreviation bm25_pool :=
  (pool 0%R BM25.ltb BM25.get_scores BM25.index_error).

Lemma bm25_wf_init (fs : gmap string file) : wf BM25.index_error fs init.
Proof. apply wf_init. Qed.

(** Two iteration orders a set of strings may have. *)
Definition order_a (l : list string) : list string := remove_dups l.
Definition order_b (l : list string) : list string := reverse (remove_dups l).

Lemma order_a_ok : set_order order_a.
Proof.
  intros l. split; [apply NoDup_remove_dups|]. intros x. apply elem_of_remove_dups.
Qed.

Lemma order_b_ok : set_order order_b.
Proof.
  intros l. unfold order_b. split.
  - rewrite reverse_Permutation. apply NoDup_remove_dups.
  - intros x. by rewrite elem_of_reverse, elem_of_remove_dups.
Qed.

Lemma results_for_missing {num} (zero : num) ltb get_scores index_error
    (fs : gmap string file) query d k :
  fs !! csv_name d = None ->
  results_for zero ltb get_scores index_error fs query d k = Ok [].
Proof.
  intros H. unfold results_for. cbn [pool].
  rewrite category_hits_missing by done. cbn. by rewrite slice_to_nil.
Qed.

(** Evaluation of the stable sort, one comparison at a time. *)
Lemma sort_desc_cons {num} (ltb : num -> num -> bool) r l :
  sort_desc ltb (r :: l) = insert_desc ltb r (sort_desc ltb l).
Proof. done. Qed.

Lemma insert_desc_behind {num} (ltb : num -> num -> bool) r r' l :
  ltb (score r) (score r') = true ->
  insert_desc ltb r (r' :: l) = r' :: insert_desc ltb r l.
Proof. intros H. simpl. by rewrite H. Qed.

Lemma insert_desc_before {num} (ltb : num -> num -> bool) r r' l :
  ltb (score r) (score r') = false ->
  insert_desc ltb r (r' :: l) = r :: r' :: l.
Proof. intros H. simpl. by rewrite H. Qed.

(** *** A small corpus *)

Definition dashboard_row : record :=
  [ ("name", Some "Analytics Dashboard"); ("anti_patterns", Some "clutter;noise") ].

Definition product_rows : list record :=
  [ dashboard_row;
    [ ("name", Some "Travel Blog"); ("anti_patterns", Some "autoplay") ];
    [ ("name", Some "Flower Shop"); ("anti_patterns", Some "popups") ] ].

(** A data directory with the product file only. *)
Definition products_only : gmap string file :=
  {[ "products.csv" := Rows product_rows ]}.

(** The same directory with a style file that cannot be read. *)
Definition styles_broken : gmap string file :=
  <[ "styles.csv" := Unreadable ]> products_only.

Lemma dashboard_rows_matching :
  filter (fun doc => shares_token (tokenize_query "dashboard") (tokenize_doc doc) = true)
    product_rows = [dashboard_row].
Proof. by vm_compute. Qed.

Definition dashboard_result : SearchResult :=
  bm25_result "product" product_rows (tokenize_query "dashboard") dashboard_row.

Lemma product_hits (fs : gmap string file) :
  fs !! "products.csv" = Some (Rows product_rows) ->
  category_hits 0%R BM25.ltb BM25.get_scores BM25.index_error fs
    (tokenize_query "dashboard") "product"
  = Ok [dashboard_result].
Proof.
  intros Hfs. rewrite (category_hits_bm25 _ _ _ product_rows) by done.
  by rewrite dashboard_rows_matching.
Qed.

Lemma products_only_pool :
  bm25_pool products_only (tokenize_query "dashboard") domain_keys
  = Ok [dashboard_result].
Proof.
  unfold domain_keys, domains. cbn [fmap list_fmap fst pool].
  rewrite product_hits by (by vm_compute).
  rewrite !category_hits_missing by (by vm_compute).
  done.
Qed.

Lemma products_only_generated order :
  generated 0%R BM25.ltb BM25.get_scores BM25.index_error products_only order
    "dashboard" "Acme" =
  compose order "dashboard" "Acme" [dashboard_result] [] [] [] [] [] [].
Proof.
  unfold generated.
  rewrite (results_for_missing _ _ _ _ _ _ "style"),
    (results_for_missing _ _ _ _ _ _ "color"),
    (results_for_missing _ _ _ _ _ _ "typography"),
    (results_for_missing _ _ _ _ _ _ "landing"),
    (results_for_missing _ _ _ _ _ _ "chart"),
    (results_for_missing _ _ _ _ _ _ "ux") by (by vm_compute).
  unfold results_for. cbn [pool]. rewrite product_hits by (by vm_compute).
  done.
Qed.

Lemma dashboard_anti_patterns (order : list string -> list string) :
  exists doc,
    compose order "dashboard" "Acme" [dashboard_result] [] [] [] [] [] [] = Ok doc /\
    ds_anti_patterns doc = slice 0 5 (order ["clutter"; "noise"]).
Proof. eexists. split; reflexivity. Qed.

Lemma products_only_loadable ds : loadable BM25.index_error products_only ds.
Proof.
  apply Forall_forall. intros d _. unfold loads_and_builds, products_only.
  destruct (decide (csv_name d = "products.csv")) as [-> | Hne].
  - by rewrite lookup_singleton_eq.
  - by rewrite lookup_singleton_ne.
Qed.

Lemma products_only_anti_patterns : anti_patterns_are_strings products_only.
Proof.
  intros rows H. vm_compute in H. injection H as <-.
  repeat constructor; discriminate.
Qed.

(** *** A catalogue with three categories *)

(** Seven products; three of them are dashboards and one of these is an
    analytics dashboard. *)
Definition sales_product : record :=
  [ ("name", Some "Sales Dashboard"); ("anti_patterns", Some "clutter;noise") ].
Definition analytics_product : record :=
  [ ("name", Some "Analytics Dashboard"); ("anti_patterns", Some "noise;popups") ].
Definition fitness_product : record :=
  [ ("name", Some "Fitness Dashboard"); ("anti_patterns", Some "clutter") ].

Definition catalog_products : list record :=
  [ [ ("name", Some "Travel Blog"); ("anti_patterns", Some "autoplay") ];
    sales_product;
    [ ("name", Some "Flower Shop"); ("anti_patterns", Some "popups") ];
    analytics_product;
    [ ("name", Some "Coffee Bar"); ("anti_patterns", Some "carousel") ];
    fitness_product;
    [ ("name", Some "Law Firm"); ("anti_patterns", Some "jargon") ] ].

(** Seven styles of the same shape. *)
Definition dark_style : record :=
  [ ("style", Some "Dark Dashboard"); ("mood", Some "focused") ].
Definition dense_style : record :=
  [ ("style", Some "Dense Dashboard"); ("mood", Some "busy") ].
Definition analytics_style : record :=
  [ ("style", Some "Dashboard Analytics"); ("mood", Some "calm") ].

Definition catalog_styles : list record :=
  [ dark_style;
    [ ("style", Some "Soft Pastel"); ("mood", Some "gentle") ];
    dense_style;
    [ ("style", Some "Bold Editorial"); ("mood", Some "loud") ];
    [ ("style", Some "Plain Paper"); ("mood", Some "quiet") ];
    analytics_style;
    [ ("style", Some "Neon Arcade"); ("mood", Some "playful") ] ].

(** Seven guidelines of the same shape; one of the dashboard guidelines
    has no rule. *)
Definition density_guideline : record :=
  [ ("guideline_name", Some "Dashboard"); ("rule", Some "Declutter");
    ("category", Some "layout") ].
Definition filters_guideline : record :=
  [ ("guideline_name", Some "Dashboard"); ("rule", Some "");
    ("category", Some "data filters") ].
Definition analytics_guideline : record :=
  [ ("guideline_name", Some "Analytics dashboard"); ("rule", Some "Annotate");
    ("category", Some "") ].

Definition catalog_ux : list record :=
  [ [ ("guideline_name", Some "Forms"); ("rule", Some "Label");
      ("category", Some "input") ];
    density_guideline;
    [ ("guideline_name", Some "Menus"); ("rule", Some "Flatten");
      ("category", Some "navigation") ];
    filters_guideline;
    analytics_guideline;
    [ ("guideline_name", Some "Text"); ("rule", Some "Contrast");
      ("category", Some "accessibility") ];
    [ ("guideline_name", Some "Motion"); ("rule", Some "Reduce");
      ("category", Some "accessibility") ] ].

Definition catalog : gmap string file :=
  {[ "products.csv" := Rows catalog_products;
     "styles.csv" := Rows catalog_styles;
     "ux-guidelines.csv" := Rows catalog_ux ]}.

Definition catalog_query : string := "Analytics Dashboard".

Definition product_result (doc : record) : SearchResult :=
  bm25_result "product" catalog_products (tokenize_query catalog_query) doc.
Definition style_result (doc : record) : SearchResult :=
  bm25_result "style" catalog_styles (tokenize_query catalog_query) doc.
Definition ux_result (doc : record) : SearchResult :=
  bm25_result "ux" catalog_ux (tokenize_query catalog_query) doc.

(** The pool of the unfiltered search: category order, then load
    order. *)
Definition catalog_pool : list SearchResult :=
  [ product_result sales_product; product_result analytics_product;
    product_result fitness_product;
    style_result dark_style; style_result dense_style; style_result analytics_style;
    ux_result density_guideline; ux_result filters_guideline;
    ux_result analytics_guideline ].

(** The ranking: the three rows with both query tokens, then the six
    with one, each group in pool order. *)
Definition catalog_ranking : list SearchResult :=
  [ product_result analytics_product; style_result analytics_style;
    ux_result analytics_guideline;
    product_result sales_product; product_result fitness_product;
    style_result dark_style; style_result dense_style;
    ux_result density_guideline; ux_result filters_guideline ].

Lemma catalog_loadable ds : loadable BM25.index_error catalog ds.
Proof.
  apply Forall_forall. intros d _. unfold loads_and_builds, catalog.
  destruct (decide (csv_name d = "products.csv")) as [-> | Hne1]; [by vm_compute|].
  destruct (decide (csv_name d = "styles.csv")) as [-> | Hne2]; [by vm_compute|].
  destruct (decide (csv_name d = "ux-guidelines.csv")) as [-> | Hne3]; [by vm_compute|].
  by rewrite !lookup_insert_ne, lookup_singleton_ne by done.
Qed.

Lemma catalog_anti_patterns : anti_patterns_are_strings catalog.
Proof.
  intros rows H. vm_compute in H. injection H as <-.
  repeat constructor; discriminate.
Qed.

Lemma catalog_category_pools :
  category_hits 0%R BM25.ltb BM25.get_scores BM25.index_error catalog
    (tokenize_query catalog_query) "product" =
  Ok [ product_result sales_product; product_result analytics_product;
       product_result fitness_product ] /\
  category_hits 0%R BM25.ltb BM25.get_scores BM25.index_error catalog
    (tokenize_query catalog_query) "style" =
  Ok [ style_result dark_style; style_result dense_style;
       style_result analytics_style ] /\
  category_hits 0%R BM25.ltb BM25.get_scores BM25.index_error catalog
    (tokenize_query catalog_query) "ux" =
  Ok [ ux_result density_guideline; ux_result filters_guideline;
       ux_result analytics_guideline ].
Proof.
  split; [|split].
  - rewrite (category_hits_bm25 _ _ _ catalog_products) by (by vm_compute).
    assert (filter (fun doc => shares_token (tokenize_query catalog_query)
                                 (tokenize_doc doc) = true) catalog_products
            = [sales_product; analytics_product; fitness_product]) as ->
      by (by vm_compute).
    done.
  - rewrite (category_hits_bm25 _ _ _ catalog_styles) by (by vm_compute).
    assert (filter (fun doc => shares_token (tokenize_query catalog_query)
                                 (tokenize_doc doc) = true) catalog_styles
            = [dark_style; dense_style; analytics_style]) as ->
      by (by vm_compute).
    done.
  - rewrite (category_hits_bm25 _ _ _ catalog_ux) by (by vm_compute).
    assert (filter (fun doc => shares_token (tokenize_query catalog_query)
                                 (tokenize_doc doc) = true) catalog_ux
            = [density_guideline; filters_guideline; analytics_guideline]) as ->
      by (by vm_compute).
    done.
Qed.

Lemma catalog_pool_all :
  bm25_pool catalog (tokenize_query catalog_query) domain_keys = Ok catalog_pool.
Proof.
  destruct catalog_category_pools as (Hp & Hs & Hu).
  unfold domain_keys, domains. cbn [fmap list_fmap fst pool].
  rewrite Hp, Hs, Hu.
  rewrite !category_hits_missing by (by vm_compute).
  done.
Qed.

Lemma catalog_tokens : tokenize_query catalog_query = ["analytics"; "dashboard"].
Proof. by vm_compute. Qed.

Ltac same_shape := apply contribution_same_shape; by vm_compute.
Ltac no_such_token :=
  rewrite contribution_zero by (apply (bool_decide_unpack _); by vm_compute).

(** The scores of the catalogue: the rows with one query token all have
    one score, the rows with both all have another, higher one. *)
Lemma catalog_scores :
  exists lo hi : R,
    (0 < lo)%R /\ (lo < hi)%R /\
    score (product_result sales_product) = lo /\
    score (product_result analytics_product) = hi /\
    score (product_result fitness_product) = lo /\
    score (style_result dark_style) = lo /\
    score (style_result dense_style) = lo /\
    score (style_result analytics_style) = hi /\
    score (ux_result density_guideline) = lo /\
    score (ux_result filters_guideline) = lo /\
    score (ux_result analytics_guideline) = hi.
Proof.
  exists (BM25.contribution (tokenize_doc <$> catalog_products)
            (tokenize_doc sales_product) "dashboard"),
         (BM25.contribution (tokenize_doc <$> catalog_products)
            (tokenize_doc analytics_product) "analytics" +
          BM25.contribution (tokenize_doc <$> catalog_products)
            (tokenize_doc sales_product) "dashboard")%R.
  assert (0 < BM25.contribution (tokenize_doc <$> catalog_products)
                (tokenize_doc sales_product) "dashboard")%R as Hlo.
  { apply contribution_pos; apply (bool_decide_unpack _); by vm_compute. }
  assert (0 < BM25.contribution (tokenize_doc <$> catalog_products)
                (tokenize_doc analytics_product) "analytics")%R as Hhi.
  { apply contribution_pos; apply (bool_decide_unpack _); by vm_compute. }
  split; [exact Hlo|]. split; [lra|].
  unfold product_result, style_result, ux_result, bm25_result. cbn [score].
  rewrite catalog_tokens, !score_two.
  repeat apply conj.
  - no_such_token. rewrite Rplus_0_l. same_shape.
  - apply (f_equal2 Rplus); same_shape.
  - no_such_token. rewrite Rplus_0_l. same_shape.
  - no_such_token. rewrite Rplus_0_l. same_shape.
  - no_such_token. rewrite Rplus_0_l. same_shape.
  - apply (f_equal2 Rplus); same_shape.
  - no_such_token. rewrite Rplus_0_l. same_shape.
  - no_such_token. rewrite Rplus_0_l. same_shape.
  - apply (f_equal2 Rplus); same_shape.
Qed.

Ltac compare_scores :=
  match goal with
  | Hlo : (0 < ?lo)%R, Hlt : (?lo < ?hi)%R |- BM25.ltb ?x ?y = _ =>
      repeat match goal with
             | H : score _ = lo |- _ => rewrite H
             | H : score _ = hi |- _ => rewrite H
             end;
      first [ apply bm25_ltb_true; lra | apply bm25_ltb_false; lra ]
  end.

Ltac rank :=
  rewrite ?sort_desc_cons;
  change (sort_desc BM25.ltb []) with (@nil (@SearchResult R));
  repeat first
    [ rewrite insert_desc_behind by compare_scores
    | rewrite insert_desc_before by compare_scores
    | progress change (insert_desc BM25.ltb ?r []) with [r] ].

Lemma catalog_ranking_sorts : sort_desc BM25.ltb catalog_pool = catalog_ranking.
Proof.
  destruct catalog_scores
    as (lo & hi & Hlo & Hlt & H1 & H2 & H3 & H4 & H5 & H6 & H7 & H8 & H9).
  unfold catalog_pool, catalog_ranking. rank. reflexivity.
Qed.

Lemma catalog_products_sort :
  sort_desc BM25.ltb
    [ product_result sales_product; product_result analytics_product;
      product_result fitness_product ] =
  [ product_result analytics_product; product_result sales_product;
    product_result fitness_product ].
Proof.
  destruct catalog_scores
    as (lo & hi & Hlo & Hlt & H1 & H2 & H3 & H4 & H5 & H6 & H7 & H8 & H9).
  rank. reflexivity.
Qed.

Lemma catalog_styles_sort :
  sort_desc BM25.ltb
    [ style_result dark_style; style_result dense_style;
      style_result analytics_style ] =
  [ style_result analytics_style; style_result dark_style;
    style_result dense_style ].
Proof.
  destruct catalog_scores
    as (lo & hi & Hlo & Hlt & H1 & H2 & H3 & H4 & H5 & H6 & H7 & H8 & H9).
  rank. reflexivity.
Qed.

Lemma catalog_ux_sort :
  sort_desc BM25.ltb
    [ ux_result density_guideline; ux_result filters_guideline;
      ux_result analytics_guideline ] =
  [ ux_result analytics_guideline; ux_result density_guideline;
    ux_result filters_guideline ].
Proof.
  destruct catalog_scores
    as (lo & hi & Hlo & Hlt & H1 & H2 & H3 & H4 & H5 & H6 & H7 & H8 & H9).
  rank. reflexivity.
Qed.

(** What the unfiltered search of the catalogue returns for a cap. *)
Lemma catalog_search k st :
  wf BM25.index_error catalog st ->
  (bm25_search catalog catalog_query None k st).1 = Ok (slice_to k catalog_ranking).
Proof.
  intros Hwf. rewrite search_spec by auto using bm25_scores_length.
  change (domains_to_search None) with domain_keys.
  by rewrite catalog_pool_all, catalog_ranking_sorts.
Qed.

Lemma catalog_filtered_search d k st hs ranked :
  wf BM25.index_error catalog st -> d <> "" ->
  category_hits 0%R BM25.ltb BM25.get_scores BM25.index_error catalog
    (tokenize_query catalog_query) d = Ok hs ->
  sort_desc BM25.ltb hs = ranked ->
  (bm25_search catalog catalog_query (Some d) k st).1 = Ok (slice_to k ranked).
Proof.
  intros Hwf Hd Hhs Hsort. rewrite search_spec by auto using bm25_scores_length.
  rewrite domains_to_search_filtered by done. cbn [pool]. rewrite Hhs.
  cbn [fst]. by rewrite app_nil_r, Hsort.
Qed.

(** The checklist made from the ranked guidelines: the guideline
    without a rule is skipped. *)
Lemma catalog_checklist :
  _generate_checklist
    [ ux_result analytics_guideline; ux_result density_guideline;
      ux_result filters_guideline ] =
  [ {| item := "Analytics dashboard"; rule := "Annotate"; category := Some "" |};
    {| item := "Dashboard"; rule := "Declutter"; category := Some "layout" |} ].
Proof. reflexivity. Qed.

(** A product file whose dashboard row is shorter than the header: the
    reader binds the missing anti-pattern field to [None]. *)
Definition short_product : record :=
  [ ("name", Some "Sales Dashboard"); ("anti_patterns", None) ].

Definition short_rows : list record :=
  [ [ ("name", Some "Travel Blog"); ("anti_patterns", Some "autoplay") ];
    short_product;
    [ ("name", Some "Flower Shop"); ("anti_patterns", Some "popups") ] ].

Definition short_row_directory : gmap string file :=
  {[ "products.csv" := Rows short_rows ]}.

Definition short_result : SearchResult :=
  bm25_result "product" short_rows (tokenize_query "dashboard") short_product.

Lemma short_row_loadable ds : loadable BM25.index_error short_row_directory ds.
Proof.
  apply Forall_forall. intros d _. unfold loads_and_builds, short_row_directory.
  destruct (decide (csv_name d = "products.csv")) as [-> | Hne].
  - by rewrite lookup_singleton_eq.
  - by rewrite lookup_singleton_ne.
Qed.

Lemma short_row_search st :
  wf BM25.index_error short_row_directory st ->
  (bm25_search short_row_directory "dashboard" (Some "product") 3 st).1
  = Ok [short_result].
Proof.
  intros Hwf. rewrite search_spec by auto using bm25_scores_length.
  change (domains_to_search (Some "product")) with ["product"]. cbn [pool].
  rewrite (category_hits_bm25 _ _ _ short_rows) by (by vm_compute).
  assert (filter (fun doc => shares_token (tokenize_query "dashboard")
                               (tokenize_doc doc) = true) short_rows
          = [short_product]) as -> by (by vm_compute).
  reflexivity.
Qed.

(** A directory with a file for a name outside the seven categories. *)
Definition fonts_directory : gmap string file :=
  {[ "fonts.csv" := Rows product_rows ]}.

(** *** Inputs on which the claims as stated fail *)

(** C2, as stated, fails: over one corpus, two runs that iterate the set
    of anti-pattern phrases in different orders return different
    documents. *)
Lemma anti_patterns_follow_set_order :
  set_order order_a /\ set_order order_b /\
  exists doc1 doc2,
    (bm25_generator products_only order_a "dashboard" "Acme" init).1 = Ok doc1 /\
    (bm25_generator products_only order_b "dashboard" "Acme" init).1 = Ok doc2 /\
    ds_anti_patterns doc1 = ["clutter"; "noise"] /\
    ds_anti_patterns doc2 = ["noise"; "clutter"] /\
    doc1 <> doc2.
Proof.
  split; [apply order_a_ok|]. split; [apply order_b_ok|].
  destruct (dashboard_anti_patterns order_a) as (doc1 & Hdoc1 & Hanti1).
  destruct (dashboard_anti_patterns order_b) as (doc2 & Hdoc2 & Hanti2).
  exists doc1, doc2.
  rewrite !generator_spec by auto using wf_init, bm25_scores_length.
  rewrite !products_only_generated.
  repeat split; try done.
  intros ->. rewrite Hanti1 in Hanti2. by vm_compute in Hanti2.
Qed.

(** C3, as stated, fails: with a style file that cannot be read, the
    product category alone has a result for the query, and the
    unfiltered search returns nothing: it raises the loader's error. *)
Lemma unreadable_category_aborts_unfiltered_search :
  (bm25_search styles_broken "dashboard" (Some "product") 10 init).1
  = Ok [dashboard_result] /\
  (bm25_search styles_broken "dashboard" None 10 init).1 = Raise OSError.
Proof.
  split.
  - rewrite search_spec by auto using wf_init, bm25_scores_length.
    change (domains_to_search (Some "product")) with ["product"].
    cbn [pool]. by rewrite product_hits by (by vm_compute).
  - apply search_raises_first
      with (before := ["product"]) (d := "style")
           (after := ["color"; "typography"; "landing"; "chart"; "ux"]);
      [apply bm25_scores_length | apply wf_init | done | | by vm_compute].
    apply Forall_cons. split; [by vm_compute|constructor].
Qed.

(** C4, as stated, fails: a category without a file is loaded again by
    the second search that targets it. *)
Lemma missing_category_is_loaded_again :
  loads (bm25_search (∅ : gmap string file) "dashboard" (Some "ux") 10 init).2 = ["ux"] /\
  loads (bm25_search (∅ : gmap string file) "dashboard" (Some "ux") 10
           (bm25_search (∅ : gmap string file) "dashboard" (Some "ux") 10 init).2).2
  = ["ux"; "ux"].
Proof. split; reflexivity. Qed.

(** C6, as stated, fails: with [max_results = -1] the number of results
    is not bounded by [max_results]. *)
Lemma negative_cap_is_no_bound :
  exists rs,
    (bm25_search products_only "dashboard" None (-1) init).1 = Ok rs /\
    ~ (Z.of_nat (length rs) <= -1).
Proof.
  exists []. split; [|simpl; lia].
  rewrite search_spec by auto using wf_init, bm25_scores_length.
  change (domains_to_search None) with domain_keys.
  by rewrite products_only_pool.
Qed.

(** A row without any text beside a row with some. *)
Definition blank_row : record := [ ("name", Some "") ].
Definition blog_row : record := [ ("name", Some "Travel Blog") ].

(** C7, as stated, fails: a query without tokens.  The row without text
    holds exactly the query's tokens, the other row holds none of them,
    the scoring library accepts the two rows, and the first row does not
    score higher than the second: both score zero. *)
Lemma blank_query_outranks_nothing :
  blank_row ∈ [blank_row; blog_row] /\
  tokenize_doc blank_row = tokenize_query "" /\
  (forall t, t ∈ tokenize_query "" -> t ∉ tokenize_doc blog_row) /\
  BM25.index_error (tokenize_doc <$> [blank_row; blog_row]) = None /\
  ~ (BM25.score (tokenize_doc <$> [blank_row; blog_row])
       (tokenize_query "") (tokenize_doc blog_row)
     < BM25.score (tokenize_doc <$> [blank_row; blog_row])
         (tokenize_query "") (tokenize_doc blank_row))%R.
Proof.
  split; [by left|]. split; [by vm_compute|].
  split; [by intros t Ht%elem_of_nil|]. split; [by vm_compute|].
  change (tokenize_query "") with (@nil string). unfold BM25.score. simpl. lra.
Qed.

(** C8, as stated, fails: a search with a negative [max_results] raises
    when the file of a target category cannot be read. *)
Lemma negative_cap_search_raises :
  -1 < 0 /\
  (bm25_search styles_broken "dashboard" None (-1) init).1 = Raise OSError.
Proof.
  split; [lia|].
  apply search_raises_first
    with (before := ["product"]) (d := "style")
         (after := ["color"; "typography"; "landing"; "chart"; "ux"]);
    [apply bm25_scores_length | apply wf_init | done | | by vm_compute].
  apply Forall_cons. split; [by vm_compute|constructor].
Qed.

(** C9, as stated, fails: the empty string lies outside the seven
    categories and no file named [.csv] exists, yet the search filtered
    on it returns a result, found in the product category. *)
Lemma empty_domain_searches_every_category :
  ("" ∉ domain_keys) /\
  products_only !! ("" +:+ ".csv") = None /\
  (bm25_search products_only "dashboard" (Some "") 10 init).1 = Ok [dashboard_result].
Proof.
  split; [|split].
  - rewrite list_elem_of_In. vm_compute. intuition discriminate.
  - by vm_compute.
  - rewrite search_spec by auto using wf_init, bm25_scores_length.
    change (domains_to_search (Some "")) with domain_keys.
    by rewrite products_only_pool.
Qed.

(** *** The theorems at concrete inputs *)

Lemma search_sorted_positive_stable_witness :
  wf BM25.index_error catalog init /\
  loadable BM25.index_error catalog (domains_to_search None) /\
  bm25_pool catalog (tokenize_query catalog_query) (domains_to_search None)
  = Ok catalog_pool /\
  (bm25_search catalog catalog_query None 7 init).1 = Ok (take 7 catalog_ranking) /\
  StronglySorted (ge_score BM25.ltb) (take 7 catalog_ranking) /\
  Forall (positive 0%R BM25.ltb) (take 7 catalog_ranking) /\
  forall s, filter (fun r => tie BM25.ltb s r = true) (take 7 catalog_ranking)
              `prefix_of` filter (fun r => tie BM25.ltb s r = true) catalog_pool.
Proof.
  pose proof (catalog_search 7 init (bm25_wf_init _)) as Hrs.
  change (slice_to 7 catalog_ranking) with (take 7 catalog_ranking) in Hrs.
  split; [apply wf_init|]. split; [apply catalog_loadable|].
  split; [apply catalog_pool_all|]. split; [exact Hrs|].
  destruct (search_sorted_positive_stable 0%R BM25.ltb BM25.get_scores BM25.index_error
              catalog bm25_ltb_asym bm25_ltb_negtrans bm25_scores_length
              catalog_query None 7 init (bm25_wf_init _)) as [_ Hprop].
  destruct (Hprop _ Hrs) as (Hsorted & Hpos & p & Hp & Hties).
  change (domains_to_search None) with domain_keys in Hp.
  rewrite catalog_pool_all in Hp. injection Hp as <-.
  split; [exact Hsorted|]. split; [exact Hpos|exact Hties].
Defined.

Lemma search_unfiltered_cap_witness :
  wf BM25.index_error catalog init /\ 0 <= 7 /\
  loadable BM25.index_error catalog domain_keys /\
  (bm25_search catalog catalog_query None 7 init).1 = Ok (take 7 catalog_ranking) /\
  Z.of_nat (length (take 7 catalog_ranking)) <= 7.
Proof.
  pose proof (catalog_search 7 init (bm25_wf_init _)) as Hrs.
  change (slice_to 7 catalog_ranking) with (take 7 catalog_ranking) in Hrs.
  split; [apply wf_init|]. split; [lia|]. split; [apply catalog_loadable|].
  split; [exact Hrs|].
  destruct (search_unfiltered_cap 0%R BM25.ltb BM25.get_scores BM25.index_error catalog
              bm25_scores_length catalog_query 7 init (bm25_wf_init _) ltac:(lia))
    as [_ Hprop].
  by destruct (Hprop _ Hrs).
Defined.

Lemma search_negative_cap_witness :
  wf BM25.index_error catalog init /\ -1 < 0 /\
  (bm25_search catalog catalog_query None (-1) init).1 = Ok (take 8 catalog_ranking) /\
  exists removed,
    (bm25_search catalog catalog_query None 9 init).1
    = Ok (take 8 catalog_ranking ++ removed) /\
    take 8 catalog_ranking ++ removed ≡ₚ catalog_pool /\
    StronglySorted (ge_score BM25.ltb) (take 8 catalog_ranking ++ removed) /\
    length removed = 1%nat /\
    S (length (take 8 catalog_ranking)) = length catalog_pool.
Proof.
  pose proof (catalog_search (-1) init (bm25_wf_init _)) as Hrs.
  change (slice_to (-1) catalog_ranking) with (take 8 catalog_ranking) in Hrs.
  split; [apply wf_init|]. split; [lia|]. split; [exact Hrs|].
  destruct (search_negative_cap 0%R BM25.ltb BM25.get_scores BM25.index_error catalog
              bm25_ltb_asym bm25_ltb_negtrans bm25_scores_length
              catalog_query None (-1) init (bm25_wf_init _) ltac:(lia))
    as (_ & _ & Hprop).
  destruct (Hprop _ Hrs)
    as (p & removed & Hp & Hall & Hperm & Hsorted & _ & Hremoved & _ & Hlast).
  change (domains_to_search None) with domain_keys in Hp.
  rewrite catalog_pool_all in Hp. injection Hp as <-.
  exists removed. split; [exact Hall|]. split; [exact Hperm|].
  split; [exact Hsorted|]. split; [exact Hremoved|].
  apply Hlast; [reflexivity|discriminate].
Defined.

Lemma search_loader_failure_propagates_witness :
  wf BM25.index_error styles_broken init /\
  ("style" ∈ domains_to_search None) /\
  styles_broken !! csv_name "style" = Some Unreadable /\
  loadable BM25.index_error styles_broken ["product"] /\
  (bm25_search styles_broken "dashboard" None 10 init).1 = Raise OSError.
Proof.
  assert ("style" ∈ domains_to_search None) as Hin by (by repeat constructor).
  assert (styles_broken !! csv_name "style" = Some Unreadable) as Hbroken
    by (by vm_compute).
  assert (loadable BM25.index_error styles_broken ["product"]) as Hbefore.
  { apply Forall_cons. split; [by vm_compute|constructor]. }
  split; [apply wf_init|]. split; [exact Hin|]. split; [exact Hbroken|].
  split; [exact Hbefore|].
  destruct (search_loader_failure_propagates 0%R BM25.ltb BM25.get_scores
              BM25.index_error styles_broken bm25_scores_length
              "dashboard" None 10 init "style" (bm25_wf_init _) Hin Hbroken)
    as [_ Hfirst].
  apply (Hfirst ["product"] ["color"; "typography"; "landing"; "chart"; "ux"]);
    [reflexivity|exact Hbefore].
Defined.

Lemma search_caches_only_built_indices_witness :
  wf BM25.index_error products_only init /\
  ("style" ∈ domains_to_search None) /\
  products_only !! csv_name "style" = None /\
  (bm25_search products_only "dashboard" None 10 init).1 = Ok [dashboard_result] /\
  indices (bm25_search products_only "dashboard" None 10 init).2 !! "style" = None /\
  loader_calls "style" (bm25_search products_only "dashboard" None 10 init).2 = 1%nat /\
  loader_calls "style"
    (bm25_search products_only "dashboard" None 10
       (bm25_search products_only "dashboard" None 10 init).2).2 = 2%nat.
Proof.
  assert ("style" ∈ domains_to_search None) as Hin by (by repeat constructor).
  assert ((bm25_search products_only "dashboard" None 10 init).1 = Ok [dashboard_result])
    as Hrs.
  { rewrite search_spec by auto using wf_init, bm25_scores_length.
    change (domains_to_search None) with domain_keys.
    by rewrite products_only_pool. }
  pose proof (wf_search 0%R BM25.ltb BM25.get_scores BM25.index_error products_only
                bm25_scores_length "dashboard" None 10 init (bm25_wf_init _)) as Hwf.
  assert ((bm25_search products_only "dashboard" None 10
             (bm25_search products_only "dashboard" None 10 init).2).1
          = Ok [dashboard_result]) as Hrs'.
  { rewrite search_spec by auto using bm25_scores_length.
    change (domains_to_search None) with domain_keys.
    by rewrite products_only_pool. }
  split; [apply wf_init|]. split; [exact Hin|]. split; [by vm_compute|].
  split; [exact Hrs|].
  destruct (search_caches_only_built_indices 0%R BM25.ltb BM25.get_scores
              BM25.index_error products_only bm25_scores_length
              "dashboard" None "style" 10 init (bm25_wf_init _) Hin)
    as [_ Hfirst].
  destruct (Hfirst _ Hrs) as [Hmissing _].
  destruct (Hmissing ltac:(left; by vm_compute)) as [Hnone Hcalls].
  destruct (search_caches_only_built_indices 0%R BM25.ltb BM25.get_scores
              BM25.index_error products_only bm25_scores_length
              "dashboard" None "style" 10 _ Hwf Hin)
    as [_ Hsecond].
  destruct (Hsecond _ Hrs') as [Hmissing' _].
  destruct (Hmissing' ltac:(left; by vm_compute)) as [_ Hcalls'].
  split; [exact Hnone|]. split; [exact Hcalls|].
  rewrite Hcalls', Hcalls. reflexivity.
Defined.

Lemma search_unknown_domain_witness :
  wf BM25.index_error fonts_directory init /\ "fonts" <> "" /\
  ("fonts" ∉ domain_keys) /\
  (bm25_search fonts_directory "dashboard" (Some "fonts") 10 init).1 =
  Ok [bm25_result "fonts" product_rows (tokenize_query "dashboard") dashboard_row].
Proof.
  assert ("fonts" ∉ domain_keys) as Hunknown.
  { rewrite list_elem_of_In. vm_compute. intuition discriminate. }
  split; [apply wf_init|]. split; [done|]. split; [exact Hunknown|].
  destruct (search_unknown_domain 0%R BM25.ltb BM25.get_scores BM25.index_error
              fonts_directory bm25_scores_length "dashboard" "fonts" 10 init
              (bm25_wf_init _) ltac:(done) Hunknown) as [-> _].
  change (fonts_directory !! ("fonts" +:+ ".csv")) with (Some (Rows product_rows)).
  change (BM25.index_error (tokenize_doc <$> product_rows)) with (@None exn).
  cbv beta iota. unfold product_rows at 1.
  fold product_rows. rewrite hits_bm25, dashboard_rows_matching. reflexivity.
Defined.

Lemma checklist_at_most_five_witness :
  wf BM25.index_error catalog init /\
  loadable BM25.index_error catalog domain_keys /\
  anti_patterns_are_strings catalog /\
  exists doc,
    (bm25_generator catalog order_a catalog_query "Acme" init).1 = Ok doc /\
    ds_checklist doc =
    [ {| item := "Analytics dashboard"; rule := "Annotate"; category := Some "" |};
      {| item := "Dashboard"; rule := "Declutter"; category := Some "layout" |} ] /\
    (length (ds_checklist doc) <= 5)%nat.
Proof.
  split; [apply wf_init|]. split; [apply catalog_loadable|].
  split; [apply catalog_anti_patterns|].
  destruct (checklist_at_most_five 0%R BM25.ltb BM25.get_scores BM25.index_error
              catalog order_a bm25_scores_length catalog_query "Acme" init
              (bm25_wf_init _)) as [Hret Hprop].
  destruct (Hret (catalog_loadable _) catalog_anti_patterns) as [doc Hdoc].
  exists doc. split; [exact Hdoc|].
  destruct (Hprop doc Hdoc) as (Hlen & ux & Hux & _ & _ & Hchecklist & _).
  split; [|exact Hlen].
  destruct catalog_category_pools as (_ & _ & Hhits).
  rewrite (catalog_filtered_search "ux" 5 init _ _ (bm25_wf_init _) ltac:(done)
             Hhits catalog_ux_sort) in Hux.
  injection Hux as <-. rewrite Hchecklist. apply catalog_checklist.
Defined.

Lemma generator_deterministic_up_to_set_order_witness :
  set_order order_a /\ set_order order_b /\
  wf BM25.index_error products_only init /\
  same_up_to_set_order order_a order_b
    (bm25_search products_only "dashboard" (Some "product") 3 init).1
    (bm25_generator products_only order_a "dashboard" "Acme" init).1
    (bm25_generator products_only order_b "dashboard" "Acme" init).1.
Proof.
  split; [apply order_a_ok|]. split; [apply order_b_ok|]. split; [apply wf_init|].
  apply (generator_deterministic_up_to_set_order 0%R BM25.ltb BM25.get_scores
           BM25.index_error products_only bm25_scores_length order_a order_b
           order_a_ok order_b_ok "dashboard" "Acme" init init
           (bm25_wf_init _) (bm25_wf_init _)).
Defined.

(** A category with a row that is exactly the query and rows without
    any of its tokens. *)
Definition exact_row : record := [ ("name", Some "Minimal Dashboard") ].
Definition other_row : record := [ ("name", Some "Travel Blog"); ("style", Some "serif") ].
Definition third_row : record := [ ("name", Some "Flower Shop") ].
Definition three_rows : list record := [ other_row; exact_row; third_row ].

Lemma exact_match_outranks_disjoint_witness :
  tokenize_query "minimal dashboard" <> [] /\
  exact_row ∈ three_rows /\
  tokenize_doc exact_row = tokenize_query "minimal dashboard" /\
  (forall t, t ∈ tokenize_query "minimal dashboard" -> t ∉ tokenize_doc other_row) /\
  (BM25.score (tokenize_doc <$> three_rows)
     (tokenize_query "minimal dashboard") (tokenize_doc other_row)
   < BM25.score (tokenize_doc <$> three_rows)
       (tokenize_query "minimal dashboard") (tokenize_doc exact_row))%R.
Proof.
  assert (forall t, t ∈ tokenize_query "minimal dashboard" -> t ∉ tokenize_doc other_row)
    as Hdisjoint.
  { intros t Ht%list_elem_of_In. rewrite list_elem_of_In.
    vm_compute in Ht. vm_compute. intuition (subst; discriminate). }
  split; [by vm_compute|]. split; [by repeat constructor|].
  split; [by vm_compute|]. split; [exact Hdisjoint|].
  apply exact_match_outranks_disjoint;
    [by vm_compute | by repeat constructor | by vm_compute | exact Hdisjoint].
Defined.

(** ** Further properties of the tokenizer *)

Section TextFacts.

Implicit Types (s t : string) (c : ascii) (acc : list ascii).

(** A token: a non-empty string without whitespace. *)
Definition is_token (t : string) : Prop :=
  t <> "" /\ Forall (fun c => Text.is_space c = false) (list_ascii_of_string t).

Lemma is_space_lower_char c : Text.is_space (Text.lower_char c) = Text.is_space c.
Proof. by destruct c as [[] [] [] [] [] [] [] []]. Qed.

Lemma lower_char_idem c : Text.lower_char (Text.lower_char c) = Text.lower_char c.
Proof. by destruct c as [[] [] [] [] [] [] [] []]. Qed.

Lemma lower_idem s : Text.lower (Text.lower s) = Text.lower s.
Proof. induction s as [|c s IH]; simpl; [done|]. by rewrite lower_char_idem, IH. Qed.

Lemma lower_app s t : Text.lower (s +:+ t) = Text.lower s +:+ Text.lower t.
Proof. induction s as [|c s IH]; simpl; [done|]. by rewrite IH. Qed.

Lemma lower_string_of_list (l : list ascii) :
  Text.lower (string_of_list_ascii l) = string_of_list_ascii (Text.lower_char <$> l).
Proof. induction l as [|c l IH]; simpl; [done|]. by rewrite IH. Qed.

Lemma string_of_list_app (l1 l2 : list ascii) :
  string_of_list_ascii (l1 ++ l2) = string_of_list_ascii l1 +:+ string_of_list_ascii l2.
Proof. induction l1 as [|c l1 IH]; simpl; [done|]. by rewrite IH. Qed.

Lemma string_app_nil_r s : s +:+ "" = s.
Proof.
  induction s as [|c s IH]; [done|].
  change (String c s +:+ "") with (String c (s +:+ "")). by rewrite IH.
Qed.

Lemma string_app_assoc s1 s2 s3 : (s1 +:+ s2) +:+ s3 = s1 +:+ (s2 +:+ s3).
Proof.
  induction s1 as [|c s1 IH]; [done|].
  change (String c ((s1 +:+ s2) +:+ s3) = String c (s1 +:+ (s2 +:+ s3))).
  by rewrite IH.
Qed.

Lemma flush_tokens acc :
  Forall (fun c => Text.is_space c = false) acc -> Forall is_token (Text.flush acc).
Proof.
  intros Hacc. destruct acc as [|c acc]; [constructor|].
  unfold Text.flush. repeat constructor.
  - intros H. apply (f_equal list_ascii_of_string) in H.
    rewrite list_ascii_of_string_of_list_ascii in H. simpl in H.
    by destruct (rev acc).
  - rewrite list_ascii_of_string_of_list_ascii.
    apply Forall_forall. intros x Hx%list_elem_of_In%in_rev%list_elem_of_In.
    rewrite Forall_forall in Hacc. by apply Hacc.
Qed.

Lemma split_aux_tokens s : forall acc,
  Forall (fun c => Text.is_space c = false) acc -> Forall is_token (Text.split_aux acc s).
Proof.
  induction s as [|c s IH]; intros acc Hacc; simpl.
  - by apply flush_tokens.
  - destruct (Text.is_space c) eqn:Hc.
    + apply Forall_app. split; [by apply flush_tokens|]. by apply IH.
    + apply IH. by constructor.
Qed.

Lemma flush_lower acc :
  Text.flush (Text.lower_char <$> acc) = Text.lower <$> Text.flush acc.
Proof.
  destruct acc as [|c acc]; [done|]. unfold Text.flush.
  rewrite fmap_cons. cbn [fmap list_fmap].
  by rewrite lower_string_of_list, <- fmap_cons, map_rev.
Qed.

Lemma split_aux_lower s : forall acc,
  Text.split_aux (Text.lower_char <$> acc) (Text.lower s) =
  Text.lower <$> Text.split_aux acc s.
Proof.
  induction s as [|c s IH]; intros acc; simpl.
  - apply flush_lower.
  - rewrite is_space_lower_char. destruct (Text.is_space c).
    + by rewrite fmap_app, flush_lower, <- (IH []).
    + by rewrite <- IH.
Qed.

Lemma split_aux_app_space s1 : forall acc c s2,
  Text.is_space c = true ->
  Text.split_aux acc (s1 +:+ String c s2) = Text.split_aux acc s1 ++ Text.split_aux [] s2.
Proof.
  induction s1 as [|c1 s1 IH]; intros acc c s2 Hc; simpl.
  - by rewrite Hc.
  - destruct (Text.is_space c1); [|by apply IH].
    by rewrite (IH [] c s2 Hc), app_assoc.
Qed.

Lemma split_join (parts : list string) :
  Text.split (Text.join " " parts) = concat (Text.split <$> parts).
Proof.
  induction parts as [|p [|p' rest] IH]; [done| |].
  - simpl. by rewrite app_nil_r.
  - change (Text.join " " (p :: p' :: rest))
      with (p +:+ String " " (Text.join " " (p' :: rest))).
    unfold Text.split in *. rewrite split_aux_app_space by done.
    by rewrite IH.
Qed.

Lemma lower_join (parts : list string) :
  Text.lower (Text.join " " parts) = Text.join " " (Text.lower <$> parts).
Proof.
  induction parts as [|p [|p' rest] IH]; [done..|].
  change (Text.join " " (p :: p' :: rest))
    with (p +:+ String " " (Text.join " " (p' :: rest))).
  rewrite lower_app.
  set (tail := Text.join " " (p' :: rest)) in *.
  change (Text.lower (String " " tail)) with (String " " (Text.lower tail)).
  by rewrite IH.
Qed.

(** X1: every token of a query and of a row is a non-empty string
    without whitespace. *)
Theorem tokens_are_words (query : string) (doc : record) :
  Forall is_token (tokenize_query query) /\ Forall is_token (tokenize_doc doc).
Proof. split; by apply split_aux_tokens. Qed.

(** X2: lowercasing commutes with splitting, so the tokens of a query
    are the lowercased words of the query, each of them unchanged by a
    further lowercasing, and a query and its lowercased form have the
    same tokens. *)
Theorem tokenize_query_lowercase (query : string) :
  tokenize_query query = Text.lower <$> Text.split query /\
  Forall (fun t => Text.lower t = t) (tokenize_query query) /\
  tokenize_query (Text.lower query) = tokenize_query query.
Proof.
  assert (tokenize_query query = Text.lower <$> Text.split query) as Hsplit.
  { unfold tokenize_query, Text.split. apply (split_aux_lower query []). }
  split; [done|]. split.
  - rewrite Hsplit. apply Forall_fmap, Forall_forall. intros t _. apply lower_idem.
  - unfold tokenize_query. by rewrite lower_idem.
Qed.

(** X3: the tokens of a row are the tokens of its non-empty field
    values, field after field: joining the values with a space never
    merges or splits a token. *)
Theorem tokenize_doc_by_field (doc : record) :
  tokenize_doc doc = concat (tokenize_query <$> text_fields doc).
Proof.
  unfold tokenize_doc. rewrite lower_join, split_join.
  by rewrite <- list_fmap_compose.
Qed.

Lemma split_on_aux_nonempty sep acc s : Text.split_on_aux sep acc s <> [].
Proof.
  revert acc. induction s as [|c s IH]; intros acc; cbn [Text.split_on_aux]; [done|].
  destruct (Ascii.eqb c sep); [done|apply IH].
Qed.

Lemma join_cons sep p (rest : list string) :
  rest <> [] -> Text.join sep (p :: rest) = p +:+ sep +:+ Text.join sep rest.
Proof. by destruct rest. Qed.

Lemma split_on_aux_join sep s : forall acc,
  Text.join (String sep "") (Text.split_on_aux sep acc s) =
  string_of_list_ascii (rev acc) +:+ s.
Proof.
  induction s as [|c s IH]; intros acc; cbn [Text.split_on_aux Text.join].
  - by rewrite string_app_nil_r.
  - destruct (Ascii.eqb_spec c sep) as [-> | Hne].
    + rewrite join_cons by apply split_on_aux_nonempty. by rewrite IH.
    + rewrite IH. cbn [rev]. by rewrite string_of_list_app, string_app_assoc.
Qed.

Lemma split_on_aux_pieces sep s : forall acc,
  sep ∉ acc ->
  Forall (fun p => sep ∉ list_ascii_of_string p) (Text.split_on_aux sep acc s).
Proof.
  assert (forall acc, sep ∉ acc ->
            sep ∉ list_ascii_of_string (string_of_list_ascii (rev acc))) as Hflush.
  { intros acc Hacc. rewrite list_ascii_of_string_of_list_ascii.
    by intros ?%list_elem_of_In%in_rev%list_elem_of_In. }
  induction s as [|c s IH]; intros acc Hacc; cbn [Text.split_on_aux].
  - repeat constructor. by apply Hflush.
  - destruct (Ascii.eqb_spec c sep) as [-> | Hne].
    + constructor; [by apply Hflush|]. apply IH. apply not_elem_of_nil.
    + apply IH. apply not_elem_of_cons. split; [done|exact Hacc].
Qed.

(** X4: splitting on a separator loses nothing: the pieces, none of
    which contains the separator, joined again with the separator give
    the string back; there is always at least one piece. *)
Theorem split_on_join (sep : ascii) (s : string) :
  Text.join (String sep "") (Text.split_on sep s) = s /\
  Text.split_on sep s <> [] /\
  Forall (fun p => sep ∉ list_ascii_of_string p) (Text.split_on sep s).
Proof.
  unfold Text.split_on. split; [apply (split_on_aux_join sep s [])|].
  split; [apply split_on_aux_nonempty|].
  apply split_on_aux_pieces, not_elem_of_nil.
Qed.

End TextFacts.

(** ** Two data directories *)

Section Directories.

Context {num : Type}.
Variable zero : num.
Variable ltb : num -> num -> bool.
Variable get_scores : list (list string) -> list string -> list num.
Variable index_error : list (list string) -> option exn.
Variables fs1 fs2 : gmap string file.

(** What [load_domain] yields for a file name: a missing file loads as
    no rows. *)
Definition loaded (fs : gmap string file) (name : string) : outcome (list record) :=
  match fs !! name with
  | None => Ok []
  | Some Unreadable => Raise OSError
  | Some (Rows rows) => Ok rows
  end.

Lemma load_domain_loaded (fs : gmap string file) d st :
  load_domain fs d st =
  (loaded fs (csv_name d),
   {| indices := indices st; documents := documents st; loads := loads st ++ [d] |}).
Proof.
  unfold load_domain, loaded, bind, modify.
  by destruct (fs !! csv_name d) as [[|rows]|].
Qed.

Lemma search_domain_loaded q results d st :
  loaded fs1 (csv_name d) = loaded fs2 (csv_name d) ->
  search_domain zero ltb get_scores index_error fs1 q results d st =
  search_domain zero ltb get_scores index_error fs2 q results d st.
Proof.
  intros Hsame. unfold search_domain, bind, get.
  destruct (indices st !! d); [done|].
  unfold build_index, bind. by rewrite !load_domain_loaded, Hsame.
Qed.

Lemma foldM_search_domain_loaded q ds : forall results st,
  (forall d, d ∈ ds -> loaded fs1 (csv_name d) = loaded fs2 (csv_name d)) ->
  foldM (search_domain zero ltb get_scores index_error fs1 q) results ds st =
  foldM (search_domain zero ltb get_scores index_error fs2 q) results ds st.
Proof.
  induction ds as [|d ds IH]; intros results st Hsame; simpl; [done|].
  unfold bind. rewrite search_domain_loaded by (apply Hsame; by left).
  destruct (search_domain _ _ _ _ fs2 _ _ _ _) as [[results'|e] st']; [|done].
  apply IH. intros d' Hd'. apply Hsame. by right.
Qed.

(** X16: a search sees the data directory only through what the files
    of its target categories load to: over two directories in which
    these files load to the same rows, in particular when one has an
    empty file where the other has none, the search returns the same
    outcome and leaves the same engine, from any engine. *)
Theorem search_depends_on_loaded_rows query dom k st :
  (forall d, d ∈ domains_to_search dom ->
             loaded fs1 (csv_name d) = loaded fs2 (csv_name d)) ->
  search zero ltb get_scores index_error fs1 query dom k st =
  search zero ltb get_scores index_error fs2 query dom k st.
Proof.
  intros Hsame. unfold search, bind.
  by rewrite (foldM_search_domain_loaded _ _ _ _ Hsame).
Qed.

Hypothesis get_scores_length :
  forall corpus q, length (get_scores corpus q) = length corpus.

Lemma results_for_same_file query d k :
  fs1 !! csv_name d = fs2 !! csv_name d ->
  results_for zero ltb get_scores index_error fs1 query d k =
  results_for zero ltb get_scores index_error fs2 query d k.
Proof. intros Hsame. unfold results_for. simpl. unfold category_hits. by rewrite Hsame. Qed.

(** X17: what the document says about products depends on the product
    file alone: over two directories with the same product file, two
    documents generated for the same query, with the same set iteration
    order, have the same primary product, the same alternate products
    and the same anti-patterns, whatever the other files hold, the
    style file included. *)
Theorem product_fields_depend_on_product_file set_list query name1 name2 st1 st2
    doc1 doc2 :
  fs1 !! "products.csv" = fs2 !! "products.csv" ->
  wf index_error fs1 st1 -> wf index_error fs2 st2 ->
  (design_system_generator zero ltb get_scores index_error fs1 set_list
     query name1 st1).1 = Ok doc1 ->
  (design_system_generator zero ltb get_scores index_error fs2 set_list
     query name2 st2).1 = Ok doc2 ->
  ds_anti_patterns doc1 = ds_anti_patterns doc2 /\
  rec_product (ds_recommendations doc1) = rec_product (ds_recommendations doc2) /\
  alt_products (ds_alternatives doc1) = alt_products (ds_alternatives doc2).
Proof.
  intros Hsame Hwf1 Hwf2. rewrite !generator_spec by done.
  intros (p1 & s1 & c1 & t1 & l1 & ch1 & ux1 & Hp1 & _ & _ & _ & _ & _ & _ & Hdoc1)
    %generated_inv.
  intros (p2 & s2 & c2 & t2 & l2 & ch2 & ux2 & Hp2 & _ & _ & _ & _ & _ & _ & Hdoc2)
    %generated_inv.
  rewrite (results_for_same_file query "product" 3 Hsame), Hp2 in Hp1.
  injection Hp1 as <-.
  unfold compose, _extract_anti_patterns in Hdoc1, Hdoc2.
  destruct (gather_anti_patterns (slice 0 2 p2) []) as [phrases|]; [|done].
  injection Hdoc1 as <-. injection Hdoc2 as <-. done.
Qed.

End Directories.

(** *** The further properties at concrete inputs *)

Lemma products_only_positive_matches dom :
  bm25_pool products_only (tokenize_query "dashboard") (domains_to_search dom)
  = Ok [dashboard_result] ->
  positive_matches 0%R BM25.ltb BM25.get_scores products_only
    (tokenize_query "dashboard") (domains_to_search dom) = 1%nat.
Proof.
  intros Hp. by rewrite <- (pool_length _ _ _ _ _ bm25_scores_length _ _ _ Hp).
Qed.

Lemma products_only_search k st :
  wf BM25.index_error products_only st -> 1 <= k ->
  (bm25_search products_only "dashboard" None k st).1 = Ok [dashboard_result].
Proof.
  intros Hwf Hk. rewrite search_spec by auto using bm25_scores_length.
  change (domains_to_search None) with domain_keys. rewrite products_only_pool.
  cbn [fst]. f_equal. unfold slice_to. destruct (Z.leb_spec 0 k); [|lia].
  apply take_ge. simpl. lia.
Qed.

Lemma dashboard_result_scored :
  scored_row BM25.get_scores products_only (tokenize_query "dashboard") "product"
    dashboard_result.
Proof. exists product_rows, 0%nat. by repeat split. Qed.

Lemma dashboard_result_positive : positive 0%R BM25.ltb dashboard_result.
Proof.
  unfold positive, dashboard_result, bm25_result. cbn [score].
  rewrite bm25_positive by (by repeat constructor). by vm_compute.
Qed.

Lemma search_outcome_ignores_cache_witness :
  wf BM25.index_error products_only init /\
  wf BM25.index_error products_only (bm25_search products_only "blog" None 10 init).2 /\
  (bm25_search products_only "dashboard" None 10 init).1 =
  (bm25_search products_only "dashboard" None 10
     (bm25_search products_only "blog" None 10 init).2).1.
Proof.
  pose proof (wf_search 0%R BM25.ltb BM25.get_scores BM25.index_error products_only
                bm25_scores_length "blog" None 10 init (bm25_wf_init _)) as Hwf.
  split; [apply wf_init|]. split; [exact Hwf|].
  apply (search_outcome_ignores_cache 0%R BM25.ltb BM25.get_scores BM25.index_error
           products_only bm25_scores_length "dashboard" None 10 init _
           (bm25_wf_init _) Hwf).
Defined.

Lemma search_loads_uncached_targets_witness :
  wf BM25.index_error products_only init /\
  (bm25_search products_only "dashboard" None 10 init).1 = Ok [dashboard_result] /\
  loads (bm25_search products_only "dashboard" None 10 init).2 = domain_keys.
Proof.
  pose proof (products_only_search 10 init (bm25_wf_init _) ltac:(lia)) as Hrs.
  split; [apply wf_init|]. split; [exact Hrs|].
  by rewrite (search_loads_uncached_targets 0%R BM25.ltb BM25.get_scores
                BM25.index_error products_only bm25_scores_length
                "dashboard" None 10 init _ (bm25_wf_init _) Hrs).
Defined.

Lemma search_caches_targets_with_rows_witness :
  wf BM25.index_error products_only init /\
  (bm25_search products_only "dashboard" None 10 init).1 = Ok [dashboard_result] /\
  indices (bm25_search products_only "dashboard" None 10 init).2 !! "product"
  = Some (tokenize_doc <$> product_rows) /\
  indices (bm25_search products_only "dashboard" None 10 init).2 !! "style" = None.
Proof.
  pose proof (products_only_search 10 init (bm25_wf_init _) ltac:(lia)) as Hrs.
  split; [apply wf_init|]. split; [exact Hrs|].
  by rewrite !(search_caches_targets_with_rows 0%R BM25.ltb BM25.get_scores
                 BM25.index_error products_only bm25_scores_length
                 "dashboard" None 10 init _ _ (bm25_wf_init _) Hrs).
Defined.

Lemma search_results_are_scored_rows_witness :
  wf BM25.index_error products_only init /\
  (bm25_search products_only "dashboard" None 10 init).1 = Ok [dashboard_result] /\
  dashboard_result ∈ [dashboard_result] /\
  domain dashboard_result ∈ domains_to_search None /\
  positive 0%R BM25.ltb dashboard_result.
Proof.
  pose proof (products_only_search 10 init (bm25_wf_init _) ltac:(lia)) as Hrs.
  split; [apply wf_init|]. split; [exact Hrs|]. split; [by left|].
  destruct (search_results_are_scored_rows 0%R BM25.ltb BM25.get_scores
              BM25.index_error products_only bm25_scores_length
              "dashboard" None 10 init [dashboard_result]
              dashboard_result (bm25_wf_init _) Hrs ltac:(by left))
    as (Hdom & _ & Hpos).
  by split.
Defined.

Lemma search_returns_every_match_witness :
  wf BM25.index_error products_only init /\ 0 <= 10 /\
  Z.of_nat (positive_matches 0%R BM25.ltb BM25.get_scores products_only
              (tokenize_query "dashboard") (domains_to_search None)) <= 10 /\
  (exists rs, (bm25_search products_only "dashboard" None 10 init).1 = Ok rs /\
              dashboard_result ∈ rs).
Proof.
  assert (Z.of_nat (positive_matches 0%R BM25.ltb BM25.get_scores products_only
            (tokenize_query "dashboard") (domains_to_search None)) <= 10) as Hcap.
  { rewrite products_only_positive_matches; [lia|apply products_only_pool]. }
  split; [apply wf_init|]. split; [lia|]. split; [exact Hcap|].
  destruct (search_returns 0%R BM25.ltb BM25.get_scores BM25.index_error products_only
              bm25_scores_length "dashboard" None 10 init (bm25_wf_init _)
              (products_only_loadable _))
    as [rs Hrs].
  exists rs. split; [exact Hrs|].
  apply (search_returns_every_match 0%R BM25.ltb BM25.get_scores BM25.index_error
           products_only bm25_scores_length "dashboard" None 10 init rs
           dashboard_result (bm25_wf_init _) ltac:(lia) Hcap Hrs).
  - by repeat constructor.
  - apply dashboard_result_scored.
  - apply dashboard_result_positive.
Defined.

Lemma search_cap_monotone_witness :
  wf BM25.index_error catalog init /\ 0 <= 2 <= 4 /\
  (bm25_search catalog catalog_query None 2 init).1 = Ok (take 2 catalog_ranking) /\
  (bm25_search catalog catalog_query None 4 init).1 = Ok (take 4 catalog_ranking) /\
  take 2 catalog_ranking `prefix_of` take 4 catalog_ranking.
Proof.
  pose proof (catalog_search 2 init (bm25_wf_init _)) as Hrs.
  change (slice_to 2 catalog_ranking) with (take 2 catalog_ranking) in Hrs.
  pose proof (catalog_search 4 init (bm25_wf_init _)) as Hrs'.
  change (slice_to 4 catalog_ranking) with (take 4 catalog_ranking) in Hrs'.
  split; [apply wf_init|]. split; [lia|]. split; [exact Hrs|]. split; [exact Hrs'|].
  apply (search_cap_monotone 0%R BM25.ltb BM25.get_scores BM25.index_error catalog
           bm25_scores_length catalog_query None 2 4 init _ _ (bm25_wf_init _)
           ltac:(lia) Hrs Hrs').
Defined.

Lemma search_keeps_best_witness :
  wf BM25.index_error catalog init /\
  (bm25_search catalog catalog_query None 2 init).1 = Ok (take 2 catalog_ranking) /\
  exists dropped,
    take 2 catalog_ranking ++ dropped ≡ₚ catalog_pool /\
    length dropped = 7%nat /\
    (forall r r', r ∈ take 2 catalog_ranking -> r' ∈ dropped ->
                  ge_score BM25.ltb r r') /\
    (forall r', r' ∈ catalog_pool ->
                ge_score BM25.ltb (product_result analytics_product) r').
Proof.
  pose proof (catalog_search 2 init (bm25_wf_init _)) as Hrs.
  change (slice_to 2 catalog_ranking) with (take 2 catalog_ranking) in Hrs.
  split; [apply wf_init|]. split; [exact Hrs|].
  destruct (search_keeps_best 0%R BM25.ltb BM25.get_scores BM25.index_error catalog
              bm25_ltb_asym bm25_ltb_negtrans bm25_scores_length
              catalog_query None 2 init _ (bm25_wf_init _) Hrs)
    as (p & dropped & Hp & Hperm & Hbest & Hfirst).
  change (domains_to_search None) with domain_keys in Hp.
  rewrite catalog_pool_all in Hp. injection Hp as <-.
  exists dropped. split; [exact Hperm|]. split.
  - apply Permutation_length in Hperm. rewrite length_app in Hperm.
    change (length (take 2 catalog_ranking)) with 2%nat in Hperm.
    change (length catalog_pool) with 9%nat in Hperm. lia.
  - split; [exact Hbest|]. intros r'. by apply (Hfirst _ _ r' eq_refl).
Defined.



Lemma generator_fails_on_none_anti_patterns_witness :
  wf BM25.index_error short_row_directory init /\
  loadable BM25.index_error short_row_directory domain_keys /\
  (bm25_search short_row_directory "dashboard" (Some "product") 3 init).1
  = Ok [short_result] /\
  rec_get "anti_patterns" (metadata short_result) = Some None /\
  (bm25_generator short_row_directory order_a "dashboard" "Acme" init).1
  = Raise AttributeError.
Proof.
  pose proof (short_row_search init (bm25_wf_init _)) as Hp.
  split; [apply wf_init|]. split; [apply short_row_loadable|].
  split; [exact Hp|]. split; [reflexivity|].
  destruct (generator_fails_on_none_anti_patterns 0%R BM25.ltb BM25.get_scores
              BM25.index_error short_row_directory order_a bm25_scores_length
              "dashboard" "Acme" init (bm25_wf_init _) (short_row_loadable _))
    as [Hiff _].
  apply Hiff. exists [short_result], short_result.
  split; [exact Hp|]. split; [by left|reflexivity].
Defined.

Lemma generator_state_is_search_state_witness :
  wf BM25.index_error products_only init /\
  loadable BM25.index_error products_only domain_keys /\
  loads (bm25_generator products_only order_a "dashboard" "Acme" init).2 = domain_keys.
Proof.
  split; [apply wf_init|]. split; [apply products_only_loadable|].
  destruct (generator_state_is_search_state 0%R BM25.ltb BM25.get_scores
              BM25.index_error products_only order_a bm25_scores_length
              "dashboard" "Acme" 10 init (bm25_wf_init _)
              (products_only_loadable _)) as [_ Hloads].
  by rewrite Hloads.
Defined.

(** The product directory with an empty style file beside it. *)
Definition styles_empty : gmap string file :=
  <[ "styles.csv" := Rows [] ]> products_only.

Lemma styles_empty_loaded name : loaded styles_empty name = loaded products_only name.
Proof.
  unfold loaded, styles_empty.
  destruct (decide (name = "styles.csv")) as [-> | Hne].
  - by rewrite lookup_insert_eq.
  - by rewrite lookup_insert_ne.
Qed.

Lemma search_depends_on_loaded_rows_witness :
  (forall d, d ∈ domains_to_search None ->
             loaded styles_empty (csv_name d) = loaded products_only (csv_name d)) /\
  bm25_search styles_empty "dashboard" None 10 init =
  bm25_search products_only "dashboard" None 10 init.
Proof.
  assert (forall d, d ∈ domains_to_search None ->
            loaded styles_empty (csv_name d) = loaded products_only (csv_name d)) as Hsame.
  { intros d _. apply styles_empty_loaded. }
  split; [exact Hsame|].
  apply (search_depends_on_loaded_rows 0%R BM25.ltb BM25.get_scores BM25.index_error
           styles_empty products_only "dashboard" None 10 init Hsame).
Defined.

Lemma product_fields_depend_on_product_file_witness :
  styles_empty !! "products.csv" = products_only !! "products.csv" /\
  wf BM25.index_error styles_empty init /\ wf BM25.index_error products_only init /\
  exists doc1 doc2,
    (bm25_generator styles_empty order_a "dashboard" "Acme" init).1 = Ok doc1 /\
    (bm25_generator products_only order_a "dashboard" "Beta" init).1 = Ok doc2 /\
    ds_anti_patterns doc1 = ds_anti_patterns doc2.
Proof.
  assert (styles_empty !! "products.csv" = products_only !! "products.csv") as Hsame
    by (by vm_compute).
  split; [exact Hsame|]. split; [apply wf_init|]. split; [apply wf_init|].
  assert (loadable BM25.index_error styles_empty domain_keys) as Hr.
  { apply Forall_forall. intros d _. unfold loads_and_builds, styles_empty, products_only.
    destruct (decide (csv_name d = "styles.csv")) as [-> | Hne1];
      [by rewrite lookup_insert_eq|].
    rewrite lookup_insert_ne by done.
    destruct (decide (csv_name d = "products.csv")) as [-> | Hne2].
    - by rewrite lookup_singleton_eq.
    - by rewrite lookup_singleton_ne. }
  assert (anti_patterns_are_strings styles_empty) as Hanti.
  { intros rows Hrows. rewrite Hsame in Hrows. by apply products_only_anti_patterns. }
  destruct (generated_returns 0%R BM25.ltb BM25.get_scores BM25.index_error styles_empty
              order_a "dashboard" "Acme" Hr Hanti) as [doc1 Hdoc1].
  destruct (generated_returns 0%R BM25.ltb BM25.get_scores BM25.index_error products_only
              order_a "dashboard" "Beta" (products_only_loadable _)
              products_only_anti_patterns) as [doc2 Hdoc2].
  rewrite <- (generator_spec 0%R BM25.ltb BM25.get_scores BM25.index_error styles_empty
                order_a bm25_scores_length "dashboard" "Acme" init (bm25_wf_init _))
    in Hdoc1.
  rewrite <- (generator_spec 0%R BM25.ltb BM25.get_scores BM25.index_error products_only
                order_a bm25_scores_length "dashboard" "Beta" init (bm25_wf_init _))
    in Hdoc2.
  exists doc1, doc2. split; [exact Hdoc1|]. split; [exact Hdoc2|].
  by destruct (product_fields_depend_on_product_file 0%R BM25.ltb BM25.get_scores
                 BM25.index_error styles_empty products_only bm25_scores_length order_a
                 "dashboard" "Acme" "Beta" init init doc1 doc2 Hsame
                 (bm25_wf_init _) (bm25_wf_init _) Hdoc1 Hdoc2).
Defined.

(** ** Blank queries *)

Section BlankQuery.

Lemma flush_nil (acc : list ascii) : Text.flush acc = [] <-> acc = [].
Proof. by destruct acc. Qed.

Lemma split_aux_nil (s : string) : forall acc,
  Text.split_aux acc s = [] <->
  acc = [] /\ Forall (fun c => Text.is_space c = true) (list_ascii_of_string s).
Proof.
  induction s as [|c s IH]; intros acc; simpl.
  - rewrite flush_nil. split; [by intros ->|by intros [-> _]].
  - destruct (Text.is_space c) eqn:Hc.
    + split.
      * intros [Hflush Hrest]%app_eq_nil.
        apply flush_nil in Hflush. apply IH in Hrest as [_ Hrest].
        split; [done|]. by constructor.
      * intros [-> Hall]. apply Forall_cons in Hall as [_ Hall].
        cbn [Text.flush app]. by apply IH.
    + rewrite IH. split; [by intros [? _]|].
      intros [_ Hall]. apply Forall_cons in Hall as [Hc' _]. congruence.
Qed.

(** X18: a query has no token exactly when it consists of whitespace
    only (the empty query included). *)
Theorem tokenize_query_blank (query : string) :
  tokenize_query query = [] <->
  Forall (fun c => Text.is_space c = true) (list_ascii_of_string query).
Proof.
  destruct (tokenize_query_lowercase query) as [-> _].
  assert (Text.lower <$> Text.split query = [] <-> Text.split query = []) as ->.
  { by destruct (Text.split query). }
  unfold Text.split. rewrite split_aux_nil.
  split; [by intros [_ ?]|done].
Qed.

Context {num : Type}.
Variable zero : num.
Variable ltb : num -> num -> bool.
Variable get_scores : list (list string) -> list string -> list num.
Variable index_error : list (list string) -> option exn.
Variable fs : gmap string file.

Hypothesis get_scores_length :
  forall corpus q, length (get_scores corpus q) = length corpus.

(** The scoring library gives no positive score for a query without
    tokens. *)
Hypothesis empty_query_scores :
  forall corpus, Forall (fun s => ltb zero s = false) (get_scores corpus []).

Lemma hits_no_positive d docs : forall scores,
  Forall (fun s => ltb zero s = false) scores -> hits zero ltb d docs scores = [].
Proof.
  induction docs as [|doc docs IH]; intros scores Hall; [done|].
  destruct Hall as [|s scores Hs Hall]; [by rewrite hits_nil_scores|].
  by rewrite hits_cons, Hs, IH.
Qed.

Lemma pool_empty_query ds :
  loadable index_error fs ds ->
  pool zero ltb get_scores index_error fs [] ds = Ok [].
Proof.
  induction 1 as [|d ds Hd _ IH]; simpl; [done|].
  rewrite IH. unfold category_hits, loads_and_builds in *.
  destruct (fs !! csv_name d) as [[|[|doc docs]]|]; try done.
  by rewrite Hd, hits_no_positive.
Qed.

(** X19: provided the scoring library gives no positive score for a
    query without tokens, a blank query returns no result and raises
    nothing, whatever the category filter and [max_results], as long as
    no target category fails to load or to build its index. *)
Theorem blank_query_returns_nothing query dom k st :
  wf index_error fs st -> loadable index_error fs (domains_to_search dom) ->
  Forall (fun c => Text.is_space c = true) (list_ascii_of_string query) ->
  (search zero ltb get_scores index_error fs query dom k st).1 = Ok [].
Proof.
  intros Hwf Hr Hblank%tokenize_query_blank.
  rewrite search_spec by done. rewrite Hblank, pool_empty_query by done.
  simpl. by rewrite slice_to_nil.
Qed.

End BlankQuery.

Lemma bm25_empty_query_scores corpus :
  Forall (fun s => BM25.ltb 0%R s = false) (BM25.get_scores corpus []).
Proof.
  unfold BM25.get_scores. apply Forall_fmap, Forall_forall. intros d _. simpl.
  apply bm25_ltb_false. lra.
Qed.

Lemma blank_query_returns_nothing_witness :
  wf BM25.index_error products_only init /\
  loadable BM25.index_error products_only (domains_to_search None) /\
  Forall (fun c => Text.is_space c = true) (list_ascii_of_string "   ") /\
  (bm25_search products_only "   " None 10 init).1 = Ok [].
Proof.
  assert (Forall (fun c => Text.is_space c = true) (list_ascii_of_string "   ")) as Hblank
    by (by repeat constructor).
  split; [apply wf_init|]. split; [apply products_only_loadable|].
  split; [exact Hblank|].
  apply (blank_query_returns_nothing 0%R BM25.ltb BM25.get_scores BM25.index_error
           products_only bm25_scores_length bm25_empty_query_scores "   " None 10 init
           (bm25_wf_init _) (products_only_loadable _) Hblank).
Defined.
